(** * cosmos-toolpay: the escrow fee split and the provider SDK clients

    A shallow embedding of
    - the Release fee split of the escrow ledger (the contract itself is
      not part of the TypeScript sources; see [Ledger]),
    - [packages/provider-sdk/src/clients/EscrowClient.ts],
    - [packages/provider-sdk/src/clients/RegistryClient.ts],
    - [packages/provider-sdk/src/utils/errors.ts],
    together with the properties the specification states about them.

    JavaScript strings are modelled as [string], one [ascii] per UTF-16
    code unit below 256.  A JavaScript [number] is modelled by the type
    [number] of [Js]: the special values and the integer-valued doubles,
    which is what [parseInt] returns and what identifiers and block
    heights are. *)

From Stdlib Require Import NArith ZArith Ascii String List Bool Lia.
From stdpp Require Import gmap strings.
Import ListNotations.

Local Open Scope string_scope.

(* ===================================================================== *)
(** * The Release fee split *)
(* ===================================================================== *)

Module Ledger.

Local Open Scope N_scope.

(** Modelled from the spec: the escrow contract's Release arithmetic is
    not among the sources (only the SDK that talks to it is).  Section 3,
    invariant 4 of the specification: protocol_fee is
    floor(usage_fee * fee_percentage / 100). Amounts are unsigned big
    integers, so subtraction is the truncated subtraction of [N]. *)
Definition protocol_fee (usage_fee fee_percentage : N) : N :=
  usage_fee * fee_percentage / 100.

(** Modelled from the spec: provider_amount = usage_fee - protocol_fee
    (the contract is not among the sources). *)
Definition provider_amount (usage_fee fee_percentage : N) : N :=
  usage_fee - protocol_fee usage_fee fee_percentage.

(** Modelled from the spec: caller_refund = ceiling_fee - usage_fee
    (the contract is not among the sources). *)
Definition caller_refund (ceiling_fee usage_fee : N) : N :=
  ceiling_fee - usage_fee.

(** The three transfers of one Release. *)
Record Settlement := {
  to_provider : N;
  to_fee_pool : N;
  to_caller : N;
}.

(** Modelled from the spec: Release (section 4.2) fails with
    FeeExceedsCeiling when the usage fee is above the ceiling, and
    otherwise splits the ceiling by the formulas above (the contract is
    not among the sources). *)
Definition release_split (ceiling_fee fee_percentage usage_fee : N)
  : option Settlement :=
  if usage_fee <=? ceiling_fee then
    Some {| to_provider := provider_amount usage_fee fee_percentage;
            to_fee_pool := protocol_fee usage_fee fee_percentage;
            to_caller := caller_refund ceiling_fee usage_fee |}
  else None.

End Ledger.

(* ===================================================================== *)
(** * JavaScript values used by the clients *)
(* ===================================================================== *)

Module Js.

(** ** Strings *)

(** [s.startsWith(p)]. *)
Fixpoint startsWith (p s : string) : bool :=
  match p, s with
  | EmptyString, _ => true
  | String a p', String b s' => Ascii.eqb a b && startsWith p' s'
  | String _ _, EmptyString => false
  end.

(** [s.includes(p)]: [p] occurs in [s] at some position. *)
Fixpoint includes (s p : string) : bool :=
  startsWith p s ||
  match s with
  | EmptyString => false
  | String _ s' => includes s' p
  end.

(** ** Numbers *)

(** The Number values that occur: NaN, the infinities, negative zero and
    the integers ([Int 0] is +0).  [Int z] stands for the double with
    that integer value. *)
Inductive number :=
| NaN
| Infinity (negative : bool)
| NegZero
| Int (z : Z).

(** The Number value for a positive mathematical integer: IEEE-754
    binary64 round-to-nearest, ties to even.  A double keeps 53
    significant bits; an integer with more bits loses the low
    [N.size m - 53] ones. *)
Definition round_to_double (m : N) : N :=
  let bits := N.size m in
  if (bits <=? 53)%N then m
  else
    let sh := (bits - 53)%N in
    let q := N.shiftr m sh in
    let r := N.land m (N.ones sh) in
    let half := N.shiftl 1 (sh - 1) in
    let q' := if (half <? r)%N || ((r =? half)%N && N.odd q)
              then (q + 1)%N else q in
    N.shiftl q' sh.

(** [Number.MAX_VALUE] is (2^53 - 1) * 2^971; a rounded magnitude of
    2^1024 or more is an infinity. *)
Definition number_of_integer (negative : bool) (m : N) : number :=
  if (m =? 0)%N then (if negative then NegZero else Int 0)
  else
    let r := round_to_double m in
    if (N.shiftl 1 1024 <=? r)%N then Infinity negative
    else Int (if negative then - Z.of_N r else Z.of_N r).

(** ** [parseInt(string)] with the radix left out (ECMAScript 19.2.5) *)

(** White space and line terminators among the code units below 256:
    TAB, LF, VT, FF, CR, SP and NBSP. *)
Definition is_white_space (c : ascii) : bool :=
  let n := N_of_ascii c in
  ((9 <=? n) && (n <=? 13) || (n =? 32) || (n =? 160))%N.

Fixpoint trimStart (s : string) : string :=
  match s with
  | String c s' => if is_white_space c then trimStart s' else s
  | EmptyString => s
  end.

(** The value of [c] as a digit of the given radix, if it is one. *)
Definition digit_value (radix : N) (c : ascii) : option N :=
  let n := N_of_ascii c in
  let v :=
    if ((48 <=? n) && (n <=? 57))%N then Some (n - 48)%N
    else if ((97 <=? n) && (n <=? 122))%N then Some (n - 87)%N
    else if ((65 <=? n) && (n <=? 90))%N then Some (n - 55)%N
    else None in
  match v with
  | Some d => if (d <? radix)%N then Some d else None
  | None => None
  end.

(** The longest prefix of radix digits, read as an integer; [acc] is
    [None] until a first digit has been read. *)
Fixpoint parse_digits (radix : N) (acc : option N) (s : string) : option N :=
  match s with
  | EmptyString => acc
  | String c s' =>
      match digit_value radix c with
      | Some d =>
          parse_digits radix
            (Some (radix * match acc with Some a => a | None => 0 end + d)%N) s'
      | None => acc
      end
  end.

Definition parseInt (input : string) : number :=
  let s := trimStart input in
  let negative := startsWith "-" s in
  let s := if startsWith "+" s || startsWith "-" s
           then match s with String _ s' => s' | EmptyString => s end
           else s in
  let '(radix, s) :=
    if startsWith "0x" s || startsWith "0X" s
    then (16%N, match s with String _ (String _ s') => s' | _ => s end)
    else (10%N, s) in
  match parse_digits radix None s with
  | None => NaN
  | Some m => number_of_integer negative m
  end.

(** ** Decimal representation of an unsigned integer *)

Definition digit_char (d : N) : ascii := ascii_of_N (48 + d).

Fixpoint decimal_digits (fuel : nat) (n : N) (acc : string) : string :=
  match fuel with
  | O => acc
  | S fuel' =>
      let acc' := String (digit_char (n mod 10)) acc in
      if (n / 10 =? 0)%N then acc' else decimal_digits fuel' (n / 10) acc'
  end.

(** The canonical decimal string of [n], as the contract's
    [to_string] on an unsigned integer gives it: no sign, no leading
    zero, ["0"] for zero. *)
Definition decimal (n : N) : string :=
  decimal_digits (S (N.to_nat (N.log2 n))) n "".

(** ** Values that cross the RPC boundary *)

(** What a contract query answers: JSON data. *)
#[local] Unset Elimination Schemes.
Inductive JsValue :=
| JUndefined
| JNull
| JBool (b : bool)
| JNumber (n : number)
| JString (s : string)
| JArray (items : list JsValue)
| JObject (fields : list (string * JsValue)).
#[local] Set Elimination Schemes.

(** [!!v] *)
Definition truthy (v : JsValue) : bool :=
  match v with
  | JUndefined | JNull => false
  | JBool b => b
  | JNumber NaN | JNumber NegZero | JNumber (Int 0) => false
  | JNumber _ => true
  | JString s => negb (String.eqb s "")
  | JArray _ | JObject _ => true
  end.

(** [typeof v] *)
Definition typeof (v : JsValue) : string :=
  match v with
  | JUndefined => "undefined"
  | JNull => "object"
  | JBool _ => "boolean"
  | JNumber _ => "number"
  | JString _ => "string"
  | JArray _ | JObject _ => "object"
  end.

(** An instance of [Error]: what [new Error(message)] builds, and what
    the RPC layer throws. *)
Record JsError := {
  name : string;
  message : string;
}.

Definition new_Error (msg : string) : JsError :=
  {| name := "Error"; message := msg |}.

(** Anything a [throw] can raise.  A value that is not an instance of
    [Error] is represented by the string that [String(value)] gives for
    it, the only thing the clients do with such a value. *)
Inductive Thrown :=
| ThrownError (e : JsError)
| ThrownOther (as_string : string).

(** The outcome of a call: a returned value or an exception
    (a resolved or a rejected promise for the [async] methods). *)
Inductive Result (A : Type) :=
| Returns (a : A)
| Throws (e : Thrown).
Arguments Returns {A} a.
Arguments Throws {A} e.

End Js.

(* ===================================================================== *)
(** * The CosmJS client interface the SDK is written against *)
(* ===================================================================== *)

Module Cosm.
Import Js.

(** [Uint128]: a decimal string ([types/common.ts]). *)
Definition Uint128 := string.

Record Coin := {
  coin_denom : string;
  amount : string;
}.

Record Attribute := {
  key : string;
  value : string;
}.

Record Event := {
  type : string;
  attributes : list Attribute;
}.

(** The fields of [ExecuteResult] the SDK reads. *)
Record ExecuteResult := {
  result_transactionHash : string;
  events : list Event;
}.

(** One call of [signingClient.execute(senderAddress, contractAddress,
    msg, fee, memo, funds)], with the message type [E] of the contract. *)
Record ExecuteCall (E : Type) := {
  call_sender : string;
  call_contract : string;
  call_msg : E;
  call_fee : string;
  call_memo : option string;
  call_funds : list Coin;
}.
Arguments call_sender {E} _.
Arguments call_contract {E} _.
Arguments call_msg {E} _.
Arguments call_fee {E} _.
Arguments call_memo {E} _.
Arguments call_funds {E} _.

(** [CosmWasmClient | SigningCosmWasmClient], for query messages [Q] and
    execute messages [E].  The chain behind the client is whatever
    function answers the calls.  Only a signing client has an [execute]
    member. *)
Record Client (Q E : Type) := {
  queryContractSmart : string -> Q -> Result JsValue;
  execute : option (ExecuteCall E -> Result ExecuteResult);
}.
Arguments queryContractSmart {Q E} _ _ _.
Arguments execute {Q E} _.

(** ** Client methods: exceptions, and the trace of dispatched calls *)

(** A method body runs from the execute calls dispatched so far to its
    outcome and the calls dispatched by then. *)
Definition M (E A : Type) : Type :=
  list (ExecuteCall E) -> Result A * list (ExecuteCall E).

Definition ret {E A} (a : A) : M E A := fun tr => (Returns a, tr).

Definition throw {E A} (e : Thrown) : M E A := fun tr => (Throws e, tr).

Definition bind {E A B} (m : M E A) (k : A -> M E B) : M E B :=
  fun tr =>
    match m tr with
    | (Returns a, tr') => k a tr'
    | (Throws e, tr') => (Throws e, tr')
    end.

(** [await signingClient.execute(...)]: the call goes out, then the
    client's answer comes back. *)
Definition dispatch {E} (signingClient : ExecuteCall E -> Result ExecuteResult)
    (call : ExecuteCall E) : M E ExecuteResult :=
  fun tr => (signingClient call, (tr ++ [call])%list).

(** A method called with nothing dispatched before. *)
Definition run {E A} (m : M E A) : Result A * list (ExecuteCall E) := m [].

End Cosm.

Notation "x <- m ;; k" := (Cosm.bind m (fun x => k))
  (at level 100, m at next level, right associativity, only parsing).

(* ===================================================================== *)
(** * clients/EscrowClient.ts *)
(* ===================================================================== *)

Module EscrowClient.
Import Js Cosm.

(** [EscrowExecuteMsg] ([types/escrow.ts]), the variants this client
    builds.  [claim_fees None] is [{claim_fees: {}}] and
    [claim_fees (Some d)] is [{claim_fees: {denom: d}}]. *)
Inductive EscrowExecuteMsg :=
| lock_funds (tool_id : string) (max_fee : Uint128) (auth_token : string)
    (expires : number)
| release (escrow_id : number) (usage_fee : Uint128)
| refund_expired (escrow_id : number)
| claim_fees (denom : option string).

Inductive EscrowQueryMsg :=
| get_escrow (escrow_id : number)
| get_collected_fees.

Record LockFundsResult := {
  transactionHash : string;
  escrowId : number;
  denom : option string;
}.

(** The instance: [this.client] and [this.contractAddress]. *)
Record t := {
  client : Client EscrowQueryMsg EscrowExecuteMsg;
  contractAddress : string;
}.

Definition getContractAddress (this : t) : string := contractAddress this.

Definition getEscrow (this : t) (escrowId : number) : Result JsValue :=
  queryContractSmart (client this) (contractAddress this) (get_escrow escrowId).

Definition getCollectedFees (this : t) : Result JsValue :=
  queryContractSmart (client this) (contractAddress this) get_collected_fees.

Definition getSigningClient (this : t)
  : M EscrowExecuteMsg (ExecuteCall EscrowExecuteMsg -> Result ExecuteResult) :=
  match execute (client this) with
  | None => throw (ThrownError (new_Error "This method requires a signing client"))
  | Some signingClient => ret signingClient
  end.

(** The body of the inner [for] loop of [lockFunds], on the two mutable
    locals [escrowId] and [denom]. *)
Definition scan_attribute (st : number * option string) (attr : Attribute)
  : number * option string :=
  let '(escrowId, denom) := st in
  let escrowId :=
    if String.eqb (key attr) "escrow_id" then parseInt (value attr) else escrowId in
  let denom :=
    if String.eqb (key attr) "denom" then Some (value attr) else denom in
  (escrowId, denom).

(** The body of the outer [for] loop. *)
Definition scan_event (st : number * option string) (event : Event)
  : number * option string :=
  if String.eqb (type event) "wasm"
  then fold_left scan_attribute (attributes event) st
  else st.

(** Both loops, from [escrowId = 0] and [denom] undefined. *)
Definition scan_events (evs : list Event) : number * option string :=
  fold_left scan_event evs (Int 0, None).

(** [funds] defaults to [[]] when left out; [memo] may be left out. *)
Definition lockFunds (this : t) (senderAddress toolId : string)
    (maxFee : Uint128) (authToken : string) (expires : number)
    (funds : option (list Coin)) (memo : option string)
  : M EscrowExecuteMsg LockFundsResult :=
  signingClient <- getSigningClient this ;;
  let msg := lock_funds toolId maxFee authToken expires in
  result <- dispatch signingClient
    {| call_sender := senderAddress; call_contract := contractAddress this;
       call_msg := msg; call_fee := "auto"; call_memo := memo;
       call_funds := default [] funds |} ;;
  let '(escrowId, denom) := scan_events (events result) in
  ret {| transactionHash := result_transactionHash result;
         escrowId := escrowId;
         denom := denom |}.

Definition releaseFunds (this : t) (senderAddress : string)
    (escrowId : number) (usageFee : Uint128)
    (funds : option (list Coin)) (memo : option string)
  : M EscrowExecuteMsg string :=
  signingClient <- getSigningClient this ;;
  let msg := release escrowId usageFee in
  result <- dispatch signingClient
    {| call_sender := senderAddress; call_contract := contractAddress this;
       call_msg := msg; call_fee := "auto"; call_memo := memo;
       call_funds := default [] funds |} ;;
  ret (result_transactionHash result).

Definition refundExpired (this : t) (senderAddress : string)
    (escrowId : number) (funds : option (list Coin)) (memo : option string)
  : M EscrowExecuteMsg string :=
  signingClient <- getSigningClient this ;;
  let msg := refund_expired escrowId in
  result <- dispatch signingClient
    {| call_sender := senderAddress; call_contract := contractAddress this;
       call_msg := msg; call_fee := "auto"; call_memo := memo;
       call_funds := default [] funds |} ;;
  ret (result_transactionHash result).

(** [denom ? { denom } : {}]: a string is truthy unless it is empty. *)
Definition claimFees (this : t) (senderAddress : string)
    (denom : option string) (funds : option (list Coin)) (memo : option string)
  : M EscrowExecuteMsg string :=
  signingClient <- getSigningClient this ;;
  let msg :=
    claim_fees
      match denom with
      | Some d => if truthy (JString d) then Some d else None
      | None => None
      end in
  result <- dispatch signingClient
    {| call_sender := senderAddress; call_contract := contractAddress this;
       call_msg := msg; call_fee := "auto"; call_memo := memo;
       call_funds := default [] funds |} ;;
  ret (result_transactionHash result).

End EscrowClient.

(* ===================================================================== *)
(** * types/registry.ts and clients/RegistryClient.ts *)
(* ===================================================================== *)

Module RegistryClient.
Import Js Cosm.

(** [RegistryExecuteMsg].  [denom] is optional in the type; [description]
    is optional here too, because [registerTool] builds the message
    without it. *)
Inductive RegistryExecuteMsg :=
| register_tool (tool_id : string) (price : Uint128) (denom : option string)
    (description : option string)
| update_price (tool_id : string) (price : Uint128)
| update_denom (tool_id : string) (denom : string)
| pause_tool (tool_id : string)
| resume_tool (tool_id : string).

Inductive RegistryQueryMsg :=
| get_tool (tool_id : string)
| get_tools.

Record ToolResponse := {
  tool_id : string;
  provider : string;
  price : Uint128;
  denom : string;
  is_active : bool;
  description : string;
}.

(** A [ToolResponse] as the JSON object the contract answers with. *)
Definition ToolResponse_to_json (r : ToolResponse) : JsValue :=
  JObject [ ("tool_id", JString (tool_id r));
            ("provider", JString (provider r));
            ("price", JString (price r));
            ("denom", JString (denom r));
            ("is_active", JBool (is_active r));
            ("description", JString (description r)) ].

(** [v.k], when [v] is an object with a property [k]. *)
Fixpoint lookup_field (k : string) (fields : list (string * JsValue))
  : option JsValue :=
  match fields with
  | [] => None
  | (k', v) :: rest => if String.eqb k' k then Some v else lookup_field k rest
  end.

Definition field (k : string) (v : JsValue) : option JsValue :=
  match v with
  | JObject fields => lookup_field k fields
  | _ => None
  end.

Definition is_string (o : option JsValue) : bool :=
  match o with Some (JString _) => true | _ => false end.

Definition is_boolean (o : option JsValue) : bool :=
  match o with Some (JBool _) => true | _ => false end.

(** [v] has the shape the interface [ToolResponse] declares. *)
Definition is_ToolResponse (v : JsValue) : bool :=
  is_string (field "tool_id" v) && is_string (field "provider" v) &&
  is_string (field "price" v) && is_string (field "denom" v) &&
  is_boolean (field "is_active" v) && is_string (field "description" v).

Record t := {
  client : Client RegistryQueryMsg RegistryExecuteMsg;
  contractAddress : string;
}.

Definition getContractAddress (this : t) : string := contractAddress this.

(** [try { body } catch (error) { handler }] *)
Definition try_catch {A} (body : Result A) (handler : Thrown -> Result A)
  : Result A :=
  match body with
  | Returns a => Returns a
  | Throws e => handler e
  end.

Definition getTool (this : t) (toolId : string) : Result JsValue :=
  let query := get_tool toolId in
  try_catch
    match queryContractSmart (client this) (contractAddress this) query with
    | Returns response =>
        if negb (truthy response) || negb (String.eqb (typeof response) "object")
        then Throws (ThrownError (new_Error "Invalid response from registry contract"))
        else Returns response
    | Throws e => Throws e
    end
    (fun error =>
       match error with
       | ThrownError e =>
           if includes (message e) "not found" || includes (message e) "No such tool"
           then Throws (ThrownError
                  (new_Error ("Tool '" ++ toolId ++ "' not found in registry")))
           else Throws error
       | ThrownOther as_string =>
           Throws (ThrownError (new_Error ("Failed to query tool: " ++ as_string)))
       end).

Definition getSigningClient (this : t)
  : M RegistryExecuteMsg (ExecuteCall RegistryExecuteMsg -> Result ExecuteResult) :=
  match execute (client this) with
  | None => throw (ThrownError (new_Error "This method requires a signing client"))
  | Some signingClient => ret signingClient
  end.

(** The four methods pass [undefined] as the memo. *)
Definition registerTool (this : t) (senderAddress toolId : string)
    (price : Uint128) (funds : option (list Coin))
  : M RegistryExecuteMsg string :=
  signingClient <- getSigningClient this ;;
  let msg := register_tool toolId price None None in
  result <- dispatch signingClient
    {| call_sender := senderAddress; call_contract := contractAddress this;
       call_msg := msg; call_fee := "auto"; call_memo := None;
       call_funds := default [] funds |} ;;
  ret (result_transactionHash result).

Definition updatePrice (this : t) (senderAddress toolId : string)
    (price : Uint128) (funds : option (list Coin))
  : M RegistryExecuteMsg string :=
  signingClient <- getSigningClient this ;;
  let msg := update_price toolId price in
  result <- dispatch signingClient
    {| call_sender := senderAddress; call_contract := contractAddress this;
       call_msg := msg; call_fee := "auto"; call_memo := None;
       call_funds := default [] funds |} ;;
  ret (result_transactionHash result).

Definition pauseTool (this : t) (senderAddress toolId : string)
    (funds : option (list Coin))
  : M RegistryExecuteMsg string :=
  signingClient <- getSigningClient this ;;
  let msg := pause_tool toolId in
  result <- dispatch signingClient
    {| call_sender := senderAddress; call_contract := contractAddress this;
       call_msg := msg; call_fee := "auto"; call_memo := None;
       call_funds := default [] funds |} ;;
  ret (result_transactionHash result).

Definition resumeTool (this : t) (senderAddress toolId : string)
    (funds : option (list Coin))
  : M RegistryExecuteMsg string :=
  signingClient <- getSigningClient this ;;
  let msg := resume_tool toolId in
  result <- dispatch signingClient
    {| call_sender := senderAddress; call_contract := contractAddress this;
       call_msg := msg; call_fee := "auto"; call_memo := None;
       call_funds := default [] funds |} ;;
  ret (result_transactionHash result).

End RegistryClient.

(* ===================================================================== *)
(** * utils/errors.ts *)
(* ===================================================================== *)

Module Errors.
Import Js.

(** [normalizeError] hands back the object it was given when that is
    already an SDK error, so objects live in a store and values refer to
    them by location.  A value is a primitive or a reference to an
    object; a reference outside the store stands for an object of
    another kind (a function, say), which is no SDK error and passes no
    [hasMessage] test. *)
Definition loc := positive.

Inductive Value :=
| VUndefined
| VNull
| VBool (b : bool)
| VNumber (n : number)
| VString (s : string)
| VRef (l : loc).

(** The classes of this file. *)
Inductive SdkClass :=
| PayPerToolError
| ConfigurationError
| NetworkError
| ContractError
| EscrowVerificationError
| UsageReportingError
| WalletError.

(** [this.constructor.name] *)
Definition class_name (c : SdkClass) : string :=
  match c with
  | PayPerToolError => "PayPerToolError"
  | ConfigurationError => "ConfigurationError"
  | NetworkError => "NetworkError"
  | ContractError => "ContractError"
  | EscrowVerificationError => "EscrowVerificationError"
  | UsageReportingError => "UsageReportingError"
  | WalletError => "WalletError"
  end.

(** An object of the store: an ordinary object with its properties, an
    instance of [Error] that is not an SDK error, or an instance of
    [PayPerToolError] or of one of its subclasses with the fields its
    constructor sets. *)
Inductive Obj :=
| Plain (props : gmap string Value)
| ErrorObj (name message : string)
| SdkError (cls : SdkClass) (name message code : string) (details : loc).

Abbreviation Heap := (gmap loc Obj).

(** A fresh object. *)
Definition alloc (o : Obj) (h : Heap) : loc * Heap :=
  let l := fresh (dom h) in (l, <[l := o]> h).

(** [error instanceof PayPerToolError] *)
Definition instanceof_PayPerToolError (h : Heap) (v : Value) : bool :=
  match v with
  | VRef l => match h !! l with Some (SdkError _ _ _ _ _) => true | _ => false end
  | _ => false
  end.

(** The body of [PayPerToolError]'s constructor, for an instance of
    class [cls]: [code] defaults to ['TOOLPAY_ERROR'], and [details || {}]
    makes a new empty object when no details are given. *)
Definition construct (cls : SdkClass) (message : string) (code : option string)
    (details : option loc) (h : Heap) : loc * Heap :=
  let code := default "TOOLPAY_ERROR" code in
  let '(details, h) :=
    match details with
    | Some d => (d, h)
    | None => alloc (Plain ∅) h
    end in
  alloc (SdkError cls (class_name cls) message code details) h.

Definition new_PayPerToolError (message : string) (code : option string)
    (details : option loc) : Heap -> loc * Heap :=
  construct PayPerToolError message code details.

Definition new_ConfigurationError (message : string) (details : option loc)
  : Heap -> loc * Heap :=
  construct ConfigurationError message (Some "CONFIGURATION_ERROR") details.

Definition new_NetworkError (message : string) (details : option loc)
  : Heap -> loc * Heap :=
  construct NetworkError message (Some "NETWORK_ERROR") details.

Definition new_ContractError (message : string) (details : option loc)
  : Heap -> loc * Heap :=
  construct ContractError message (Some "CONTRACT_ERROR") details.

Definition new_EscrowVerificationError (message : string) (details : option loc)
  : Heap -> loc * Heap :=
  construct EscrowVerificationError message (Some "ESCROW_VERIFICATION_ERROR") details.

Definition new_UsageReportingError (message : string) (details : option loc)
  : Heap -> loc * Heap :=
  construct UsageReportingError message (Some "USAGE_REPORTING_ERROR") details.

Definition new_WalletError (message : string) (details : option loc)
  : Heap -> loc * Heap :=
  construct WalletError message (Some "WALLET_ERROR") details.

(** [obj.message] when the guard [hasMessage(obj)] holds: [obj] is an
    object, not [null], with a [message] property that is a string.
    Every instance of [Error] has one. *)
Definition hasMessage (h : Heap) (obj : Value) : option string :=
  match obj with
  | VRef l =>
      match h !! l with
      | Some (Plain props) =>
          match props !! "message" with
          | Some (VString m) => Some m
          | _ => None
          end
      | Some (ErrorObj _ m) => Some m
      | Some (SdkError _ _ m _ _) => Some m
      | None => None
      end
  | _ => None
  end.

(** [{ originalError: error }] *)
Definition originalError_details (error : Value) (h : Heap) : loc * Heap :=
  alloc (Plain {[ "originalError" := error ]}) h.

(** [defaultMessage] is ['Unknown error'] when left out. *)
Definition normalizeError (error : Value) (defaultMessage : option string)
    (h : Heap) : loc * Heap :=
  let defaultMessage := default "Unknown error" defaultMessage in
  match error, instanceof_PayPerToolError h error with
  | VRef l, true => (l, h)
  | _, _ =>
      let message :=
        match hasMessage h error with Some m => m | None => defaultMessage end in
      if includes message "network" || includes message "connection" ||
         includes message "timeout"
      then let '(d, h) := originalError_details error h in
           new_NetworkError message (Some d) h
      else if includes message "wallet" || includes message "signer" ||
              includes message "account"
      then let '(d, h) := originalError_details error h in
           new_WalletError message (Some d) h
      else if includes message "contract" || includes message "execute" ||
              includes message "query"
      then let '(d, h) := originalError_details error h in
           new_ContractError message (Some d) h
      else let '(d, h) := originalError_details error h in
           new_PayPerToolError message (Some "UNKNOWN_ERROR") (Some d) h
  end.

End Errors.

(* ===================================================================== *)
(** * Definitions used to state the properties *)
(* ===================================================================== *)

Module Props.
Import Js Cosm.

(** The values of the attributes with key [k] in an attribute list, in
    order. *)
Definition attribute_values (k : string) (attrs : list Attribute) : list string :=
  map value (List.filter (fun a => String.eqb (key a) k) attrs).

(** The values of the attributes with key [k] carried by the [wasm]
    events of a transaction result, in event order. *)
Definition wasm_attribute_values (k : string) (evs : list Event) : list string :=
  flat_map
    (fun ev =>
       if String.eqb (type ev) "wasm"
       then attribute_values k (attributes ev)
       else [])
    evs.

(** [f] of the last element of [l], or [d] when there is none. *)
Definition latest {A B} (f : A -> B) (l : list A) (d : B) : B :=
  match last l with
  | Some x => f x
  | None => d
  end.

(** [execute(senderAddress, this.contractAddress, msg, 'auto', memo,
    funds)] as a call record. *)
Definition escrow_call (this : EscrowClient.t) (senderAddress : string)
    (funds : option (list Coin)) (memo : option string)
    (msg : EscrowClient.EscrowExecuteMsg)
  : ExecuteCall EscrowClient.EscrowExecuteMsg :=
  {| call_sender := senderAddress;
     call_contract := EscrowClient.contractAddress this;
     call_msg := msg; call_fee := "auto"; call_memo := memo;
     call_funds := default [] funds |}.

(** The amount field of an escrow message, if it has one. *)
Definition amount_of (m : EscrowClient.EscrowExecuteMsg) : option Uint128 :=
  match m with
  | EscrowClient.lock_funds _ max_fee _ _ => Some max_fee
  | EscrowClient.release _ usage_fee => Some usage_fee
  | _ => None
  end.

(** The error every state-changing method raises on a read-only client. *)
Definition signing_client_required : Thrown :=
  ThrownError {| name := "Error"; message := "This method requires a signing client" |}.

(** [obj[k]] for a value of the object store: the property [k] of the
    object [obj] refers to, when it has one. *)
Definition get_property (h : gmap Errors.loc Errors.Obj) (obj : Errors.Value)
    (k : string) : option Errors.Value :=
  match obj with
  | Errors.VRef l =>
      match h !! l with
      | Some (Errors.Plain props) => props !! k
      | Some (Errors.ErrorObj name message) =>
          if String.eqb k "name" then Some (Errors.VString name)
          else if String.eqb k "message" then Some (Errors.VString message)
          else None
      | Some (Errors.SdkError _ name message code details) =>
          if String.eqb k "name" then Some (Errors.VString name)
          else if String.eqb k "message" then Some (Errors.VString message)
          else if String.eqb k "code" then Some (Errors.VString code)
          else if String.eqb k "details" then Some (Errors.VRef details)
          else None
      | None => None
      end
  | _ => None
  end.

(** The message [normalizeError] is to give: the input's [message] when
    that is a string, the default message otherwise. *)
Definition message_or_default (h : gmap Errors.loc Errors.Obj)
    (error : Errors.Value) (defaultMessage : option string) : string :=
  match get_property h error "message" with
  | Some (Errors.VString m) => m
  | _ => default "Unknown error" defaultMessage
  end.

(** What a result of [normalizeError] is for an input that is not an SDK
    error: a new instance of [PayPerToolError] or of a subclass, carrying
    [msg], in a store that extends [h]. *)
Definition fresh_sdk_error (h : gmap Errors.loc Errors.Obj) (msg : string)
    (r : Errors.loc * gmap Errors.loc Errors.Obj) : Prop :=
  (exists cls code details,
      r.2 !! r.1
      = Some (Errors.SdkError cls (Errors.class_name cls) msg code details))
  /\ h !! r.1 = None
  /\ (forall l x, h !! l = Some x -> r.2 !! l = Some x).

(** A decimal digit. *)
Definition is_digit (c : ascii) : bool :=
  match digit_value 10 c with Some _ => true | None => false end.

Fixpoint all_digits (s : string) : bool :=
  match s with
  | EmptyString => true
  | String c s' => is_digit c && all_digits s'
  end.

(** 2^53: up to here every integer is a double. *)
Definition two53 : N := 9007199254740992.

(** ** Sample data *)

Definition lock_events : list Event :=
  [ {| type := "message";
       attributes := [ {| key := "action"; value := "/cosmwasm.wasm.v1.MsgExecuteContract" |} ] |};
    {| type := "wasm";
       attributes := [ {| key := "_contract_address"; value := "neutron1escrow" |};
                       {| key := "action"; value := "lock_funds" |};
                       {| key := "escrow_id"; value := "7" |};
                       {| key := "denom"; value := "untrn" |} ] |} ].

Definition lock_result : ExecuteResult :=
  {| result_transactionHash := "A1B2C3"; events := lock_events |}.

(** A chain that commits every transaction with [lock_result]. *)
Definition escrow_signer : Client EscrowClient.EscrowQueryMsg EscrowClient.EscrowExecuteMsg :=
  {| queryContractSmart := fun _ _ => Returns JNull;
     execute := Some (fun _ => Returns lock_result) |}.

Definition escrow_reader : Client EscrowClient.EscrowQueryMsg EscrowClient.EscrowExecuteMsg :=
  {| queryContractSmart := fun _ _ => Returns JNull;
     execute := None |}.

Definition signing_escrow : EscrowClient.t :=
  {| EscrowClient.client := escrow_signer;
     EscrowClient.contractAddress := "neutron1escrow" |}.

Definition readonly_escrow : EscrowClient.t :=
  {| EscrowClient.client := escrow_reader;
     EscrowClient.contractAddress := "neutron1escrow" |}.

(** A chain whose lock result carries the given events. *)
Definition escrow_with_events (evs : list Event) : EscrowClient.t :=
  {| EscrowClient.client :=
       {| queryContractSmart := fun _ _ => Returns JNull;
          execute := Some (fun _ =>
            Returns {| result_transactionHash := "A1B2C3"; events := evs |}) |};
     EscrowClient.contractAddress := "neutron1escrow" |}.

Definition weather_tool : RegistryClient.ToolResponse :=
  {| RegistryClient.tool_id := "weather";
     RegistryClient.provider := "neutron1provider";
     RegistryClient.price := "1000";
     RegistryClient.denom := "untrn";
     RegistryClient.is_active := true;
     RegistryClient.description := "Weather lookup" |}.

(** A registry that knows one tool. *)
Definition registry_reader : RegistryClient.t :=
  {| RegistryClient.client :=
       {| queryContractSmart := fun _ q =>
            match q with
            | RegistryClient.get_tool id =>
                if String.eqb id "weather"
                then Returns (RegistryClient.ToolResponse_to_json weather_tool)
                else Throws (ThrownError (new_Error "Query failed: tool not found"))
            | RegistryClient.get_tools => Returns (JObject [])
            end;
          execute := None |};
     RegistryClient.contractAddress := "neutron1registry" |}.

(** A registry that answers every query with [v]. *)
Definition registry_answering (v : JsValue) : RegistryClient.t :=
  {| RegistryClient.client :=
       {| queryContractSmart := fun _ _ => Returns v; execute := None |};
     RegistryClient.contractAddress := "neutron1registry" |}.

(** Two wasm events that each carry an escrow_id and a denom. *)
Definition first_lock_event : Event :=
  {| type := "wasm";
     attributes := [ {| key := "escrow_id"; value := "7" |};
                     {| key := "denom"; value := "untrn" |} ] |}.

Definition second_lock_event : Event :=
  {| type := "wasm";
     attributes := [ {| key := "escrow_id"; value := "8" |};
                     {| key := "denom"; value := "uatom" |} ] |}.

(** A result without any wasm event: the one event that mentions an
    escrow_id and a denom has another type. *)
Definition events_without_wasm : list Event :=
  [ {| type := "transfer";
       attributes := [ {| key := "escrow_id"; value := "5" |};
                       {| key := "denom"; value := "uatom" |} ] |} ].

(** ** Definitions for the further properties *)

(** The attributes [lockFunds] looks at. *)
Definition relevant_attribute (a : Attribute) : bool :=
  String.eqb (key a) "escrow_id" || String.eqb (key a) "denom".

(** A transaction result's events cut down to the [wasm] events and,
    in each, to the [escrow_id] and [denom] attributes. *)
Definition relevant_events (evs : list Event) : list Event :=
  map (fun ev => {| type := type ev;
                    attributes := List.filter relevant_attribute (attributes ev) |})
      (List.filter (fun ev => String.eqb (type ev) "wasm") evs).

(** [execute(senderAddress, this.contractAddress, msg, 'auto', undefined,
    funds)] of the registry client, as a call record. *)
Definition registry_call (this : RegistryClient.t) (senderAddress : string)
    (funds : option (list Coin)) (msg : RegistryClient.RegistryExecuteMsg)
  : ExecuteCall RegistryClient.RegistryExecuteMsg :=
  {| call_sender := senderAddress;
     call_contract := RegistryClient.contractAddress this;
     call_msg := msg; call_fee := "auto"; call_memo := None;
     call_funds := default [] funds |}.

(** What a transaction method returns for the chain's answer: the
    transaction hash, or the chain's error. *)
Definition hash_or_error (answer : Result ExecuteResult) : Result string :=
  match answer with
  | Returns result => Returns (result_transactionHash result)
  | Throws e => Throws e
  end.

(** A registry chain that commits every transaction. *)
Definition signing_registry : RegistryClient.t :=
  {| RegistryClient.client :=
       {| queryContractSmart := fun _ _ => Returns JNull;
          execute := Some (fun _ => Returns lock_result) |};
     RegistryClient.contractAddress := "neutron1registry" |}.

(** An escrow chain that rejects every transaction. *)
Definition rejecting_escrow : EscrowClient.t :=
  {| EscrowClient.client :=
       {| queryContractSmart := fun _ _ => Returns JNull;
          execute := Some (fun _ =>
            Throws (ThrownError (new_Error "out of gas"))) |};
     EscrowClient.contractAddress := "neutron1escrow" |}.

(** The [code] each class of [errors.ts] gives its instances when it
    is constructed directly. *)
Definition class_code (cls : Errors.SdkClass) : string :=
  match cls with
  | Errors.PayPerToolError => "TOOLPAY_ERROR"
  | Errors.ConfigurationError => "CONFIGURATION_ERROR"
  | Errors.NetworkError => "NETWORK_ERROR"
  | Errors.ContractError => "CONTRACT_ERROR"
  | Errors.EscrowVerificationError => "ESCROW_VERIFICATION_ERROR"
  | Errors.UsageReportingError => "USAGE_REPORTING_ERROR"
  | Errors.WalletError => "WALLET_ERROR"
  end.

(** [new C(message, details)] for each class [C] of [errors.ts]
    ([new PayPerToolError(message, undefined, details)] for the base
    class). *)
Definition sdk_new (cls : Errors.SdkClass) (message : string)
    (details : option Errors.loc)
  : gmap Errors.loc Errors.Obj -> Errors.loc * gmap Errors.loc Errors.Obj :=
  match cls with
  | Errors.PayPerToolError => Errors.new_PayPerToolError message None details
  | Errors.ConfigurationError => Errors.new_ConfigurationError message details
  | Errors.NetworkError => Errors.new_NetworkError message details
  | Errors.ContractError => Errors.new_ContractError message details
  | Errors.EscrowVerificationError =>
      Errors.new_EscrowVerificationError message details
  | Errors.UsageReportingError => Errors.new_UsageReportingError message details
  | Errors.WalletError => Errors.new_WalletError message details
  end.

(** The three keyword tests of [normalizeError], in the order it makes
    them. *)
Definition mentions_network (msg : string) : bool :=
  includes msg "network" || includes msg "connection" || includes msg "timeout".

Definition mentions_wallet (msg : string) : bool :=
  includes msg "wallet" || includes msg "signer" || includes msg "account".

Definition mentions_contract (msg : string) : bool :=
  includes msg "contract" || includes msg "execute" || includes msg "query".

End Props.

Example includes_ex : Js.includes "tool not found here" "not found" = true.
Proof. reflexivity. Qed.
Example parseInt_ex1 : Js.parseInt "42" = Js.Int 42.
Proof. reflexivity. Qed.
Example parseInt_ex2 : Js.parseInt "  -0x1F rest" = Js.Int (-31).
Proof. reflexivity. Qed.
Example parseInt_ex3 : Js.parseInt "abc" = Js.NaN.
Proof. reflexivity. Qed.
Example parseInt_ex4 : Js.parseInt "9007199254740993" = Js.Int 9007199254740992.
Proof. vm_compute. reflexivity. Qed.
Example parseInt_ex5 : Js.parseInt "18446744073709551615" = Js.Int 18446744073709551616.
Proof. vm_compute. reflexivity. Qed.
Example parseInt_ex6 : Js.parseInt "9007199254740995" = Js.Int 9007199254740996.
Proof. vm_compute. reflexivity. Qed.
Example decimal_ex : Js.decimal 9007199254740993 = "9007199254740993".
Proof. vm_compute. reflexivity. Qed.
Example decimal_ex0 : Js.decimal 0 = "0".
Proof. vm_compute. reflexivity. Qed.

(* ===================================================================== *)
(** * The fee split conserves the ceiling *)
(* ===================================================================== *)

Section FeeSplit.
Import Ledger.
Local Open Scope N_scope.

Lemma protocol_fee_le (usage_fee fee_percentage : N) :
  fee_percentage <= 100 -> protocol_fee usage_fee fee_percentage <= usage_fee.
Proof.
  intros Hp. unfold protocol_fee.
  transitivity (usage_fee * 100 / 100).
  - apply N.Div0.div_le_mono. apply N.mul_le_mono_l. exact Hp.
  - rewrite N.div_mul by discriminate. reflexivity.
Qed.

(** C1: for usage_fee <= ceiling_fee and fee_percentage <= 100 a Release
    succeeds and provider_amount + protocol_fee + caller_refund is the
    ceiling fee exactly; with ceiling 1,000,000, 10 percent and usage
    600,000 the provider gets 540,000, the fee pool 60,000 and the caller
    400,000. *)
Theorem release_split_conserves_ceiling (ceiling_fee usage_fee fee_percentage : N) :
  usage_fee <= ceiling_fee ->
  fee_percentage <= 100 ->
  (provider_amount usage_fee fee_percentage
   + protocol_fee usage_fee fee_percentage
   + caller_refund ceiling_fee usage_fee = ceiling_fee
   /\ release_split ceiling_fee fee_percentage usage_fee =
      Some {| to_provider := provider_amount usage_fee fee_percentage;
              to_fee_pool := protocol_fee usage_fee fee_percentage;
              to_caller := caller_refund ceiling_fee usage_fee |})
  /\ release_split 1000000 10 600000 =
     Some {| to_provider := 540000; to_fee_pool := 60000; to_caller := 400000 |}.
Proof.
  intros Hu Hp. split; [split |].
  - pose proof (protocol_fee_le usage_fee fee_percentage Hp) as Hle.
    unfold provider_amount, caller_refund. lia.
  - unfold release_split.
    destruct (N.leb_spec usage_fee ceiling_fee) as [_ | Hgt]; [reflexivity | lia].
  - reflexivity.
Qed.

Lemma release_split_conserves_ceiling_witness :
  (provider_amount 600000 10 + protocol_fee 600000 10
   + caller_refund 1000000 600000 = 1000000
   /\ release_split 1000000 10 600000 =
      Some {| to_provider := provider_amount 600000 10;
              to_fee_pool := protocol_fee 600000 10;
              to_caller := caller_refund 1000000 600000 |})
  /\ release_split 1000000 10 600000 =
     Some {| to_provider := 540000; to_fee_pool := 60000; to_caller := 400000 |}.
Proof.
  apply (release_split_conserves_ceiling 1000000 600000 10); lia.
Defined.

End FeeSplit.

(* ===================================================================== *)
(** * [parseInt] on decimal strings *)
(* ===================================================================== *)

Section Decimal.
Import Js Props.
Local Open Scope N_scope.

Lemma digit_char_value (d : N) :
  d < 10 -> digit_value 10 (digit_char d) = Some d.
Proof.
  intros Hd.
  assert (d = 0 \/ d = 1 \/ d = 2 \/ d = 3 \/ d = 4 \/ d = 5 \/ d = 6 \/
          d = 7 \/ d = 8 \/ d = 9) as Hcases by lia.
  repeat (destruct Hcases as [-> | Hcases]; [reflexivity |]).
  subst d. reflexivity.
Qed.

Lemma digit_char_is_digit (d : N) : d < 10 -> is_digit (digit_char d) = true.
Proof. intros Hd. unfold is_digit. now rewrite digit_char_value. Qed.

(** A digit is neither white space, nor a sign, nor the [x] of a
    hexadecimal prefix. *)
Lemma is_digit_plain (c : ascii) :
  is_digit c = true ->
  is_white_space c = false /\ Ascii.eqb "-" c = false /\
  Ascii.eqb "+" c = false /\ Ascii.eqb "x" c = false /\ Ascii.eqb "X" c = false.
Proof.
  destruct c as [[] [] [] [] [] [] [] []]; vm_compute; intros H;
    first [ discriminate H | repeat split ].
Qed.

(** The digits of [n] are written in front of [acc]; reading them back
    from the left gives [n]. *)
Lemma parse_decimal_digits (fuel : nat) :
  forall (n : N) (acc : string),
    n < 2 ^ N.of_nat fuel * 10 ->
    parse_digits 10 None (decimal_digits (S fuel) n acc)
    = parse_digits 10 (Some n) acc.
Proof.
  induction fuel as [| fuel IH]; intros n acc Hn.
  - cbn [decimal_digits].
    assert (n / 10 = 0) as Hq by (apply N.div_small; cbn in Hn; lia).
    rewrite Hq. cbn [N.eqb parse_digits].
    rewrite digit_char_value by (apply N.mod_lt; discriminate).
    rewrite N.mod_small by (cbn in Hn; lia).
    do 2 f_equal.
  - change (decimal_digits (S (S fuel)) n acc) with
      (if n / 10 =? 0 then String (digit_char (n mod 10)) acc
       else decimal_digits (S fuel) (n / 10) (String (digit_char (n mod 10)) acc)).
    pose proof (N.div_mod n 10 ltac:(discriminate)) as Hdm.
    pose proof (N.mod_lt n 10 ltac:(discriminate)) as Hlt.
    destruct (N.eqb_spec (n / 10) 0) as [Hq | Hq].
    + cbn [parse_digits]. rewrite digit_char_value by exact Hlt.
      do 2 f_equal. lia.
    + rewrite IH.
      * cbn [parse_digits]. rewrite digit_char_value by exact Hlt.
        do 2 f_equal. lia.
      * rewrite Nat2N.inj_succ, N.pow_succ_r' in Hn.
        apply N.Div0.div_lt_upper_bound. lia.
Qed.

Lemma decimal_digits_all_digits (fuel : nat) :
  forall (n : N) (acc : string),
    all_digits acc = true -> all_digits (decimal_digits fuel n acc) = true.
Proof.
  induction fuel as [| fuel IH]; intros n acc Hacc; [exact Hacc |].
  cbn [decimal_digits].
  assert (all_digits (String (digit_char (n mod 10)) acc) = true) as Hacc'.
  { cbn [all_digits]. rewrite digit_char_is_digit, Hacc; [reflexivity |].
    apply N.mod_lt. discriminate. }
  destruct (n / 10 =? 0); [exact Hacc' | now apply IH].
Qed.

Lemma decimal_digits_nonempty (fuel : nat) :
  forall (n : N) (acc : string), decimal_digits (S fuel) n acc <> "".
Proof.
  induction fuel as [| fuel IH]; intros n acc.
  - cbn [decimal_digits]. destruct (n / 10 =? 0); discriminate.
  - change (decimal_digits (S (S fuel)) n acc) with
      (if n / 10 =? 0 then String (digit_char (n mod 10)) acc
       else decimal_digits (S fuel) (n / 10) (String (digit_char (n mod 10)) acc)).
    destruct (n / 10 =? 0); [discriminate | apply IH].
Qed.

Lemma decimal_all_digits (n : N) : all_digits (decimal n) = true.
Proof. now apply decimal_digits_all_digits. Qed.

Lemma decimal_nonempty (n : N) : decimal n <> "".
Proof. apply decimal_digits_nonempty. Qed.

(** Reading the decimal string of [n] gives [n] back, exactly. *)
Lemma parse_digits_decimal (n : N) : parse_digits 10 None (decimal n) = Some n.
Proof.
  unfold decimal. rewrite parse_decimal_digits; [reflexivity |].
  rewrite N2Nat.id.
  destruct (N.eq_dec n 0) as [-> | Hn]; [reflexivity |].
  pose proof (N.log2_spec n ltac:(lia)) as [Hlo Hhi].
  rewrite N.pow_succ_r' in Hhi. lia.
Qed.

(** On a string of digits [parseInt] skips nothing and takes no prefix. *)
Lemma parseInt_all_digits (s : string) :
  s <> "" -> all_digits s = true ->
  parseInt s =
  match parse_digits 10 None s with
  | None => NaN
  | Some m => number_of_integer false m
  end.
Proof.
  destruct s as [| c s]; [congruence |].
  intros _ Hall. cbn [all_digits] in Hall.
  apply andb_prop in Hall as [Hc Hs].
  destruct (is_digit_plain c Hc) as (Hws & Hminus & Hplus & _ & _).
  assert (startsWith "x" s = false /\ startsWith "X" s = false) as [Hx HX].
  { destruct s as [| b s]; [split; reflexivity |].
    cbn [all_digits] in Hs. apply andb_prop in Hs as [Hb _].
    destruct (is_digit_plain b Hb) as (_ & _ & _ & Hbx & HbX).
    cbn [startsWith]. rewrite Hbx, HbX. split; reflexivity. }
  unfold parseInt. cbn [trimStart]. rewrite Hws.
  change (startsWith "-" (String c s)) with (Ascii.eqb "-" c && true).
  change (startsWith "+" (String c s)) with (Ascii.eqb "+" c && true).
  rewrite Hminus, Hplus. cbn [andb orb].
  change (startsWith "0x" (String c s)) with (Ascii.eqb "0" c && startsWith "x" s).
  change (startsWith "0X" (String c s)) with (Ascii.eqb "0" c && startsWith "X" s).
  rewrite Hx, HX, andb_false_r. reflexivity.
Qed.

Lemma parseInt_decimal (n : N) :
  parseInt (decimal n) = number_of_integer false n.
Proof.
  rewrite parseInt_all_digits
    by (apply decimal_nonempty || apply decimal_all_digits).
  now rewrite parse_digits_decimal.
Qed.

(** Integers up to 2^53 are doubles: nothing is rounded. *)
Lemma round_to_double_exact (n : N) : n <= two53 -> round_to_double n = n.
Proof.
  intros Hn. unfold round_to_double.
  destruct (N.leb_spec (N.size n) 53) as [Hsz | Hsz]; [reflexivity |].
  assert (n = two53) as ->; [| vm_compute; reflexivity].
  destruct (N.eq_dec n 0) as [-> | Hn0]; [cbn in Hsz; lia |].
  pose proof (N.size_le n) as Hle. rewrite N.succ_double_spec in Hle.
  assert (2 ^ 54 <= 2 ^ N.size n) by (apply N.pow_le_mono_r; lia).
  change (2 ^ 54) with (2 * two53) in *. lia.
Qed.

Lemma number_of_integer_exact (n : N) :
  n <= two53 -> number_of_integer false n = Int (Z.of_N n).
Proof.
  intros Hn. unfold number_of_integer.
  destruct (N.eqb_spec n 0) as [-> | Hn0]; [reflexivity |].
  rewrite round_to_double_exact by exact Hn.
  destruct (N.leb_spec (N.shiftl 1 1024) n) as [Hbig | _]; [| reflexivity].
  exfalso. rewrite N.shiftl_1_l in Hbig.
  assert (2 ^ 54 <= 2 ^ 1024) by (apply N.pow_le_mono_r; lia).
  change (2 ^ 54) with (2 * two53) in *. lia.
Qed.

End Decimal.

(* ===================================================================== *)
(** * EscrowClient *)
(* ===================================================================== *)

Section Escrow.
Import Js Cosm EscrowClient Props.

(** ** The two loops of [lockFunds] keep the last value of each key *)

Lemma scan_attributes_latest (attrs : list Attribute) :
  forall st : number * option string,
    fold_left scan_attribute attrs st =
    (latest parseInt (attribute_values "escrow_id" attrs) (fst st),
     latest Some (attribute_values "denom" attrs) (snd st)).
Proof.
  induction attrs as [| a attrs IH]; intros [escrowId denom].
  - reflexivity.
  - cbn [fold_left]. rewrite IH. unfold attribute_values, scan_attribute, latest.
    cbn [List.filter fst snd].
    destruct (String.eqb (key a) "escrow_id"), (String.eqb (key a) "denom");
      cbn [map]; rewrite ?last_cons;
      repeat match goal with |- context [last ?l] => destruct (last l) end;
      reflexivity.
Qed.

Lemma scan_events_from (evs : list Event) :
  forall st : number * option string,
    fold_left scan_event evs st =
    (latest parseInt (wasm_attribute_values "escrow_id" evs) (fst st),
     latest Some (wasm_attribute_values "denom" evs) (snd st)).
Proof.
  induction evs as [| ev evs IH]; intros st.
  - destruct st; reflexivity.
  - cbn [fold_left]. rewrite IH. unfold wasm_attribute_values, scan_event, latest.
    cbn [flat_map]. rewrite !last_app.
    destruct (String.eqb (type ev) "wasm").
    + rewrite scan_attributes_latest. unfold latest. cbn [fst snd].
      repeat match goal with |- context [last ?l] => destruct (last l) end;
        reflexivity.
    + rewrite last_nil.
      repeat match goal with |- context [last ?l] => destruct (last l) end;
        reflexivity.
Qed.

Lemma scan_events_latest (evs : list Event) :
  scan_events evs =
  (latest parseInt (wasm_attribute_values "escrow_id" evs) (Int 0),
   latest Some (wasm_attribute_values "denom" evs) None).
Proof. apply scan_events_from. Qed.

Lemma wasm_attribute_values_In (k : string) (evs : list Event)
    (ev : Event) (a : Attribute) :
  In ev evs -> type ev = "wasm" -> In a (attributes ev) -> key a = k ->
  In (value a) (wasm_attribute_values k evs).
Proof.
  intros Hev Hty Ha Hk. unfold wasm_attribute_values.
  apply in_flat_map. exists ev. split; [exact Hev |].
  rewrite Hty. cbn [String.eqb Ascii.eqb Bool.eqb].
  unfold attribute_values. apply in_map. apply filter_In.
  split; [exact Ha |]. rewrite Hk. apply String.eqb_refl.
Qed.

(** When every occurrence has the same value, that is the latest. *)
Lemma latest_unique {B} (f : string -> B) (l : list string) (v : string) (d : B) :
  In v l -> (forall v', In v' l -> v' = v) -> latest f l d = f v.
Proof.
  intros Hin Hall. unfold latest.
  destruct (last l) as [x |] eqn:Hlast.
  - apply last_Some_elem_of, list_elem_of_In in Hlast.
    now rewrite (Hall x Hlast).
  - apply last_None in Hlast. subst l. destruct Hin.
Qed.

(** ** What each method does with a signing client *)

Variable this : EscrowClient.t.
Variable senderAddress : string.
Variable funds : option (list Coin).
Variable memo : option string.

Local Abbreviation call := (escrow_call this senderAddress funds memo).

Lemma lockFunds_signing signingClient toolId maxFee authToken expires :
  execute (client this) = Some signingClient ->
  run (lockFunds this senderAddress toolId maxFee authToken expires funds memo) =
  (match signingClient (call (lock_funds toolId maxFee authToken expires)) with
   | Returns result =>
       Returns {| transactionHash := result_transactionHash result;
                  escrowId := fst (scan_events (events result));
                  denom := snd (scan_events (events result)) |}
   | Throws e => Throws e
   end,
   [call (lock_funds toolId maxFee authToken expires)]).
Proof.
  intros Hsign. unfold run, lockFunds, bind, getSigningClient.
  rewrite Hsign. unfold ret, dispatch. cbn [app]. fold (call (lock_funds toolId maxFee authToken expires)).
  destruct (signingClient _) as [result | e]; [| reflexivity].
  destruct (scan_events (events result)); reflexivity.
Qed.

Lemma releaseFunds_signing signingClient escrowId usageFee :
  execute (client this) = Some signingClient ->
  run (releaseFunds this senderAddress escrowId usageFee funds memo) =
  (match signingClient (call (release escrowId usageFee)) with
   | Returns result => Returns (result_transactionHash result)
   | Throws e => Throws e
   end,
   [call (release escrowId usageFee)]).
Proof.
  intros Hsign. unfold run, releaseFunds, bind, getSigningClient.
  rewrite Hsign. unfold ret, dispatch. cbn [app]. fold (call (release escrowId usageFee)).
  destruct (signingClient _); reflexivity.
Qed.

Lemma refundExpired_signing signingClient escrowId :
  execute (client this) = Some signingClient ->
  run (refundExpired this senderAddress escrowId funds memo) =
  (match signingClient (call (refund_expired escrowId)) with
   | Returns result => Returns (result_transactionHash result)
   | Throws e => Throws e
   end,
   [call (refund_expired escrowId)]).
Proof.
  intros Hsign. unfold run, refundExpired, bind, getSigningClient.
  rewrite Hsign. unfold ret, dispatch. cbn [app]. fold (call (refund_expired escrowId)).
  destruct (signingClient _); reflexivity.
Qed.

Lemma claimFees_signing signingClient denom :
  execute (client this) = Some signingClient ->
  let msg := claim_fees match denom with
                        | Some d => if String.eqb d "" then None else Some d
                        | None => None
                        end in
  run (claimFees this senderAddress denom funds memo) =
  (match signingClient (call msg) with
   | Returns result => Returns (result_transactionHash result)
   | Throws e => Throws e
   end,
   [call msg]).
Proof.
  intros Hsign msg. unfold run, claimFees, bind, getSigningClient.
  rewrite Hsign. unfold ret, dispatch. cbn [app].
  assert (claim_fees match denom with
                     | Some d => if truthy (JString d) then Some d else None
                     | None => None
                     end = msg) as ->.
  { subst msg. destruct denom as [d |]; [| reflexivity].
    cbn [truthy]. now destruct (String.eqb d ""). }
  fold (call msg). destruct (signingClient _); reflexivity.
Qed.

End Escrow.

(* ===================================================================== *)
(** * Properties of [lockFunds] *)
(* ===================================================================== *)

Import Js Cosm Props.

(** C2, as the code has it: when the transaction succeeds and its
    result has a wasm event that carries an escrow_id attribute and a
    denom attribute, lockFunds returns the transaction hash, as escrowId
    the number parseInt reads from the value of the last escrow_id
    attribute of the wasm events (the identifier itself when that value
    is the decimal string of an integer up to 2^53), and as denom the
    value of the last denom attribute of the wasm events; these are the
    event's own values when no wasm attribute gives the key another
    value. *)
Theorem lockFunds_returns_event_attributes
    (this : EscrowClient.t) signingClient
    (senderAddress toolId maxFee authToken : string) (expires : number)
    (funds : option (list Coin)) (memo : option string)
    (result : ExecuteResult) (ev : Event) (v0 d0 : string) :
  execute (EscrowClient.client this) = Some signingClient ->
  signingClient
    {| call_sender := senderAddress;
       call_contract := EscrowClient.contractAddress this;
       call_msg := EscrowClient.lock_funds toolId maxFee authToken expires;
       call_fee := "auto"; call_memo := memo;
       call_funds := default [] funds |} = Returns result ->
  In ev (events result) ->
  type ev = "wasm" ->
  In {| key := "escrow_id"; value := v0 |} (attributes ev) ->
  In {| key := "denom"; value := d0 |} (attributes ev) ->
  exists before_v v before_d d,
    wasm_attribute_values "escrow_id" (events result) = (before_v ++ [v])%list
    /\ wasm_attribute_values "denom" (events result) = (before_d ++ [d])%list
    /\ fst (run (EscrowClient.lockFunds this senderAddress toolId maxFee
                   authToken expires funds memo)) =
       Returns {| EscrowClient.transactionHash := result_transactionHash result;
                  EscrowClient.escrowId := parseInt v;
                  EscrowClient.denom := Some d |}
    /\ (forall n : N, (n <= two53)%N -> v = decimal n ->
                      parseInt v = Int (Z.of_N n))
    /\ ((forall v', In v' (wasm_attribute_values "escrow_id" (events result)) ->
                    v' = v0) -> v = v0)
    /\ ((forall d', In d' (wasm_attribute_values "denom" (events result)) ->
                    d' = d0) -> d = d0).
Proof.
  intros Hsign Hok Hev Hty Hid Hdenom.
  pose proof (wasm_attribute_values_In "escrow_id" _ ev
                {| key := "escrow_id"; value := v0 |} Hev Hty Hid eq_refl) as Hv0.
  pose proof (wasm_attribute_values_In "denom" _ ev
                {| key := "denom"; value := d0 |} Hev Hty Hdenom eq_refl) as Hd0.
  cbn [value] in Hv0, Hd0.
  destruct (last (wasm_attribute_values "escrow_id" (events result)))
    as [v |] eqn:Hlv;
    [| apply last_None in Hlv; rewrite Hlv in Hv0; destruct Hv0].
  destruct (last (wasm_attribute_values "denom" (events result)))
    as [d |] eqn:Hld;
    [| apply last_None in Hld; rewrite Hld in Hd0; destruct Hd0].
  pose proof (proj1 (last_Some _ _) Hlv) as [before_v Hbv].
  pose proof (proj1 (last_Some _ _) Hld) as [before_d Hbd].
  exists before_v, v, before_d, d.
  split; [exact Hbv |]. split; [exact Hbd |]. split; [| split; [| split]].
  - rewrite (lockFunds_signing _ _ _ _ signingClient) by exact Hsign.
    unfold escrow_call. cbn [fst]. rewrite Hok, scan_events_latest.
    unfold latest. now rewrite Hlv, Hld.
  - intros n Hn ->. rewrite parseInt_decimal. now apply number_of_integer_exact.
  - intros Hall. apply Hall. rewrite Hbv. apply in_or_app. right. now left.
  - intros Hall. apply Hall. rewrite Hbd. apply in_or_app. right. now left.
Qed.

Lemma lockFunds_returns_event_attributes_witness :
  fst (run (EscrowClient.lockFunds
              (escrow_with_events [first_lock_event; second_lock_event])
              "neutron1caller" "weather" "1000000" "token" (Int 120) None None))
  = Returns {| EscrowClient.transactionHash := "A1B2C3";
               EscrowClient.escrowId := Int 8;
               EscrowClient.denom := Some "uatom" |}.
Proof.
  destruct (lockFunds_returns_event_attributes
              (escrow_with_events [first_lock_event; second_lock_event])
              (fun _ => Returns {| result_transactionHash := "A1B2C3";
                                   events := [first_lock_event; second_lock_event] |})
              "neutron1caller" "weather" "1000000" "token" (Int 120) None None
              {| result_transactionHash := "A1B2C3";
                 events := [first_lock_event; second_lock_event] |}
              first_lock_event "7" "untrn" eq_refl eq_refl
              (or_introl eq_refl) eq_refl (or_introl eq_refl)
              (or_intror (or_introl eq_refl)))
    as (before_v & v & before_d & d & Hv & Hd & Hres & _).
  change (wasm_attribute_values "escrow_id"
            (events {| result_transactionHash := "A1B2C3";
                       events := [first_lock_event; second_lock_event] |}))
    with (["7"] ++ ["8"])%list in Hv.
  change (wasm_attribute_values "denom"
            (events {| result_transactionHash := "A1B2C3";
                       events := [first_lock_event; second_lock_event] |}))
    with (["untrn"] ++ ["uatom"])%list in Hd.
  apply app_inj_tail in Hv as [_ <-]. apply app_inj_tail in Hd as [_ <-].
  exact Hres.
Defined.

(** C2 fails as stated, in two ways.  A result whose first wasm event
    carries escrow_id 7 and denom untrn and whose second carries 8 and
    uatom gives 8 and uatom, not the first event's values.  And a single
    wasm event with escrow_id 9007199254740993 gives the escrowId
    9007199254740992, not the attribute's value. *)
Lemma lockFunds_not_the_attribute_value :
  (In first_lock_event [first_lock_event; second_lock_event]
   /\ type first_lock_event = "wasm"
   /\ In {| key := "escrow_id"; value := "7" |} (attributes first_lock_event)
   /\ In {| key := "denom"; value := "untrn" |} (attributes first_lock_event)
   /\ fst (run (EscrowClient.lockFunds
                  (escrow_with_events [first_lock_event; second_lock_event])
                  "neutron1caller" "weather" "1000000" "token" (Int 120)
                  None None))
      = Returns {| EscrowClient.transactionHash := "A1B2C3";
                   EscrowClient.escrowId := Int 8;
                   EscrowClient.denom := Some "uatom" |}
   /\ Int 8 <> Int 7 /\ Some "uatom" <> Some "untrn")
  /\ (fst (run (EscrowClient.lockFunds
                  (escrow_with_events
                     [ {| type := "wasm";
                          attributes := [ {| key := "escrow_id";
                                             value := "9007199254740993" |};
                                          {| key := "denom"; value := "untrn" |} ] |} ])
                  "neutron1caller" "weather" "1000000" "token" (Int 120)
                  None None))
      = Returns {| EscrowClient.transactionHash := "A1B2C3";
                   EscrowClient.escrowId := Int 9007199254740992;
                   EscrowClient.denom := Some "untrn" |}
      /\ Int 9007199254740992 <> Int 9007199254740993).
Proof.
  split.
  - split; [left; reflexivity |]. split; [reflexivity |].
    split; [left; reflexivity |]. split; [right; left; reflexivity |].
    split; [reflexivity |]. split; discriminate.
  - split; [vm_compute; reflexivity | discriminate].
Qed.

(** C3, as the code has it: for every identifier up to 2^53, a
    successful lockFunds whose wasm escrow_id attribute is the decimal
    representation of the identifier returns exactly that identifier as
    escrowId. *)
Theorem lockFunds_escrowId_exact_below_two53
    (this : EscrowClient.t) signingClient
    (senderAddress toolId maxFee authToken : string) (expires : number)
    (funds : option (list Coin)) (memo : option string)
    (result : ExecuteResult) (ev : Event) (n : N) :
  (n <= two53)%N ->
  execute (EscrowClient.client this) = Some signingClient ->
  signingClient
    {| call_sender := senderAddress;
       call_contract := EscrowClient.contractAddress this;
       call_msg := EscrowClient.lock_funds toolId maxFee authToken expires;
       call_fee := "auto"; call_memo := memo;
       call_funds := default [] funds |} = Returns result ->
  In ev (events result) ->
  type ev = "wasm" ->
  In {| key := "escrow_id"; value := decimal n |} (attributes ev) ->
  (forall v', In v' (wasm_attribute_values "escrow_id" (events result)) ->
              v' = decimal n) ->
  exists r,
    fst (run (EscrowClient.lockFunds this senderAddress toolId maxFee authToken
                expires funds memo)) = Returns r
    /\ EscrowClient.escrowId r = Int (Z.of_N n).
Proof.
  intros Hn Hsign Hok Hev Hty Hid Hv.
  rewrite (lockFunds_signing _ _ _ _ signingClient) by exact Hsign.
  unfold escrow_call. cbn [fst]. rewrite Hok, scan_events_latest. cbn [fst snd].
  eexists. split; [reflexivity |]. cbn [EscrowClient.escrowId].
  rewrite (latest_unique parseInt _ (decimal n)).
  - rewrite parseInt_decimal. now apply number_of_integer_exact.
  - now apply (wasm_attribute_values_In "escrow_id" _ ev
                 {| key := "escrow_id"; value := decimal n |}).
  - exact Hv.
Qed.

Lemma lockFunds_escrowId_exact_below_two53_witness :
  exists r,
    fst (run (EscrowClient.lockFunds
                (escrow_with_events
                   [ {| type := "wasm";
                        attributes := [ {| key := "escrow_id"; value := decimal 9007199254740992 |};
                                        {| key := "denom"; value := "untrn" |} ] |} ])
                "neutron1caller" "weather" "1000000" "token" (Int 120) None None))
    = Returns r
    /\ EscrowClient.escrowId r = Int 9007199254740992.
Proof.
  refine (lockFunds_escrowId_exact_below_two53
            (escrow_with_events _) _ "neutron1caller" "weather" "1000000" "token"
            (Int 120) None None _
            {| type := "wasm";
               attributes := [ {| key := "escrow_id"; value := decimal 9007199254740992 |};
                               {| key := "denom"; value := "untrn" |} ] |}
            9007199254740992 _ eq_refl eq_refl _ eq_refl _ _).
  - unfold two53. lia.
  - left; reflexivity.
  - left; reflexivity.
  - intros v' [<- | []]; reflexivity.
Defined.

(** C3 fails above 2^53: the identifier 9007199254740993 = 2^53 + 1 is
    an unsigned 64-bit value, and lockFunds returns 9007199254740992. *)
Lemma lockFunds_escrowId_rounded_above_two53 :
  (9007199254740993 < 2 ^ 64)%N
  /\ decimal 9007199254740993 = "9007199254740993"
  /\ fst (run (EscrowClient.lockFunds
                 (escrow_with_events
                    [ {| type := "wasm";
                         attributes := [ {| key := "escrow_id"; value := "9007199254740993" |};
                                         {| key := "denom"; value := "untrn" |} ] |} ])
                 "neutron1caller" "weather" "1000000" "token" (Int 120) None None))
     = Returns {| EscrowClient.transactionHash := "A1B2C3";
                  EscrowClient.escrowId := Int 9007199254740992;
                  EscrowClient.denom := Some "untrn" |}
  /\ Int 9007199254740992 <> Int 9007199254740993.
Proof.
  split; [reflexivity |]. split; [vm_compute; reflexivity |].
  split; [vm_compute; reflexivity | discriminate].
Qed.

(** C10, as the code has it: a successful lockFunds always returns a
    result; escrowId is 0 when no wasm event has an escrow_id attribute,
    denom is undefined when no wasm event has a denom attribute, and
    otherwise each is taken from the last wasm attribute with its key,
    in event order. *)
Theorem lockFunds_defaults_and_last_occurrence
    (this : EscrowClient.t) signingClient
    (senderAddress toolId maxFee authToken : string) (expires : number)
    (funds : option (list Coin)) (memo : option string)
    (result : ExecuteResult) :
  execute (EscrowClient.client this) = Some signingClient ->
  signingClient
    {| call_sender := senderAddress;
       call_contract := EscrowClient.contractAddress this;
       call_msg := EscrowClient.lock_funds toolId maxFee authToken expires;
       call_fee := "auto"; call_memo := memo;
       call_funds := default [] funds |} = Returns result ->
  exists r,
    fst (run (EscrowClient.lockFunds this senderAddress toolId maxFee authToken
                expires funds memo)) = Returns r
    /\ EscrowClient.transactionHash r = result_transactionHash result
    /\ (wasm_attribute_values "escrow_id" (events result) = [] ->
        EscrowClient.escrowId r = Int 0)
    /\ (wasm_attribute_values "denom" (events result) = [] ->
        EscrowClient.denom r = None)
    /\ (forall before v,
          wasm_attribute_values "escrow_id" (events result) = (before ++ [v])%list ->
          EscrowClient.escrowId r = parseInt v)
    /\ (forall before d,
          wasm_attribute_values "denom" (events result) = (before ++ [d])%list ->
          EscrowClient.denom r = Some d).
Proof.
  intros Hsign Hok.
  rewrite (lockFunds_signing _ _ _ _ signingClient) by exact Hsign.
  unfold escrow_call. cbn [fst]. rewrite Hok, scan_events_latest. cbn [fst snd].
  eexists. split; [reflexivity |].
  cbn [EscrowClient.transactionHash EscrowClient.escrowId EscrowClient.denom].
  unfold latest. repeat split.
  - intros ->. reflexivity.
  - intros ->. reflexivity.
  - intros before v ->. now rewrite last_snoc.
  - intros before d ->. now rewrite last_snoc.
Qed.

Lemma lockFunds_defaults_and_last_occurrence_witness :
  (exists r,
      fst (run (EscrowClient.lockFunds (escrow_with_events events_without_wasm)
                  "neutron1caller" "weather" "1000000" "token" (Int 120)
                  None None)) = Returns r
      /\ EscrowClient.escrowId r = Int 0
      /\ EscrowClient.denom r = None)
  /\ (exists r,
        fst (run (EscrowClient.lockFunds
                    (escrow_with_events [first_lock_event; second_lock_event])
                    "neutron1caller" "weather" "1000000" "token" (Int 120)
                    None None)) = Returns r
        /\ EscrowClient.escrowId r = Int 8
        /\ EscrowClient.denom r = Some "uatom").
Proof.
  split.
  - destruct (lockFunds_defaults_and_last_occurrence
                (escrow_with_events events_without_wasm)
                (fun _ => Returns {| result_transactionHash := "A1B2C3";
                                     events := events_without_wasm |})
                "neutron1caller" "weather" "1000000" "token" (Int 120) None None
                {| result_transactionHash := "A1B2C3";
                   events := events_without_wasm |} eq_refl eq_refl)
      as (r & Hr & _ & Hno_id & Hno_denom & _).
    exists r. split; [exact Hr |].
    split; [apply Hno_id | apply Hno_denom]; reflexivity.
  - destruct (lockFunds_defaults_and_last_occurrence
                (escrow_with_events [first_lock_event; second_lock_event])
                (fun _ => Returns {| result_transactionHash := "A1B2C3";
                                     events := [first_lock_event; second_lock_event] |})
                "neutron1caller" "weather" "1000000" "token" (Int 120) None None
                {| result_transactionHash := "A1B2C3";
                   events := [first_lock_event; second_lock_event] |}
                eq_refl eq_refl)
      as (r & Hr & _ & _ & _ & Hlast_id & Hlast_denom).
    exists r. split; [exact Hr |]. split.
    + exact (Hlast_id ["7"] "8" eq_refl).
    + exact (Hlast_denom ["untrn"] "uatom" eq_refl).
Defined.

(** C10 fails as stated: a result whose only wasm event carries a denom
    attribute and no escrow_id attribute gives escrowId 0 with denom
    ["untrn"], not undefined. *)
Lemma lockFunds_denom_without_escrow_id :
  let evs := [ {| type := "wasm";
                  attributes := [ {| key := "action"; value := "lock_funds" |};
                                  {| key := "denom"; value := "untrn" |} ] |} ] in
  wasm_attribute_values "escrow_id" evs = []
  /\ fst (run (EscrowClient.lockFunds (escrow_with_events evs)
                 "neutron1caller" "weather" "1000000" "token" (Int 120) None None))
     = Returns {| EscrowClient.transactionHash := "A1B2C3";
                  EscrowClient.escrowId := Int 0;
                  EscrowClient.denom := Some "untrn" |}
  /\ Some "untrn" <> (None : option string).
Proof.
  split; [reflexivity |]. split; [reflexivity | discriminate].
Qed.

(* ===================================================================== *)
(** * Properties of the other escrow transactions *)
(* ===================================================================== *)

(** C5, as the code has it: with a non-empty denomination claimFees
    sends {claim_fees: {denom}} carrying that denomination; with the
    denomination left out, and also with the empty string, it sends
    {claim_fees: {}}. *)
Theorem claimFees_message
    (this : EscrowClient.t) signingClient (senderAddress : string)
    (funds : option (list Coin)) (memo : option string) :
  execute (EscrowClient.client this) = Some signingClient ->
  (forall d : string,
      d <> "" ->
      snd (run (EscrowClient.claimFees this senderAddress (Some d) funds memo)) =
      [ {| call_sender := senderAddress;
           call_contract := EscrowClient.contractAddress this;
           call_msg := EscrowClient.claim_fees (Some d);
           call_fee := "auto"; call_memo := memo;
           call_funds := default [] funds |} ])
  /\ snd (run (EscrowClient.claimFees this senderAddress None funds memo)) =
     [ {| call_sender := senderAddress;
          call_contract := EscrowClient.contractAddress this;
          call_msg := EscrowClient.claim_fees None;
          call_fee := "auto"; call_memo := memo;
          call_funds := default [] funds |} ]
  /\ snd (run (EscrowClient.claimFees this senderAddress (Some "") funds memo)) =
     [ {| call_sender := senderAddress;
          call_contract := EscrowClient.contractAddress this;
          call_msg := EscrowClient.claim_fees None;
          call_fee := "auto"; call_memo := memo;
          call_funds := default [] funds |} ].
Proof.
  intros Hsign. repeat split.
  - intros d Hd.
    rewrite (claimFees_signing _ _ _ _ signingClient) by exact Hsign.
    apply String.eqb_neq in Hd. rewrite Hd. reflexivity.
  - now rewrite (claimFees_signing _ _ _ _ signingClient) by exact Hsign.
  - now rewrite (claimFees_signing _ _ _ _ signingClient) by exact Hsign.
Qed.

Lemma claimFees_message_witness :
  snd (run (EscrowClient.claimFees signing_escrow "neutron1owner" (Some "untrn")
              None None)) =
  [ {| call_sender := "neutron1owner"; call_contract := "neutron1escrow";
       call_msg := EscrowClient.claim_fees (Some "untrn");
       call_fee := "auto"; call_memo := None; call_funds := [] |} ].
Proof.
  refine (proj1 (claimFees_message signing_escrow (fun _ => Returns lock_result)
                   "neutron1owner" None None eq_refl) "untrn" _).
  discriminate.
Defined.

(** C5 fails as stated: a call that supplies the empty string as the
    denomination sends {claim_fees: {}}, the claim of every
    denomination, not {claim_fees: {denom: ""}}. *)
Lemma claimFees_empty_denom_claims_all :
  snd (run (EscrowClient.claimFees signing_escrow "neutron1owner" (Some "")
              None None)) =
  [ {| call_sender := "neutron1owner"; call_contract := "neutron1escrow";
       call_msg := EscrowClient.claim_fees None;
       call_fee := "auto"; call_memo := None; call_funds := [] |} ]
  /\ EscrowClient.claim_fees None <> EscrowClient.claim_fees (Some "").
Proof. split; [reflexivity | discriminate]. Qed.

(** C6: lockFunds puts the maxFee string, and releaseFunds the usageFee
    string, unchanged into the max_fee and usage_fee field of the one
    message it sends; an amount given as the decimal string of any
    unsigned integer [n] reads back from the message as [n] exactly. *)
Theorem amounts_cross_verbatim
    (this : EscrowClient.t) signingClient
    (senderAddress toolId authToken : string) (maxFee usageFee : Uint128)
    (expires escrowId : number)
    (funds : option (list Coin)) (memo : option string) :
  execute (EscrowClient.client this) = Some signingClient ->
  snd (run (EscrowClient.lockFunds this senderAddress toolId maxFee authToken
              expires funds memo)) =
  [ {| call_sender := senderAddress;
       call_contract := EscrowClient.contractAddress this;
       call_msg := EscrowClient.lock_funds toolId maxFee authToken expires;
       call_fee := "auto"; call_memo := memo;
       call_funds := default [] funds |} ]
  /\ snd (run (EscrowClient.releaseFunds this senderAddress escrowId usageFee
                 funds memo)) =
     [ {| call_sender := senderAddress;
          call_contract := EscrowClient.contractAddress this;
          call_msg := EscrowClient.release escrowId usageFee;
          call_fee := "auto"; call_memo := memo;
          call_funds := default [] funds |} ]
  /\ (forall n : N,
        map (fun c => amount_of (call_msg c))
          (snd (run (EscrowClient.lockFunds this senderAddress toolId (decimal n)
                       authToken expires funds memo))) = [Some (decimal n)]
        /\ map (fun c => amount_of (call_msg c))
             (snd (run (EscrowClient.releaseFunds this senderAddress escrowId
                          (decimal n) funds memo))) = [Some (decimal n)]
        /\ parse_digits 10 None (decimal n) = Some n).
Proof.
  intros Hsign. repeat split.
  - now rewrite (lockFunds_signing _ _ _ _ signingClient) by exact Hsign.
  - now rewrite (releaseFunds_signing _ _ _ _ signingClient) by exact Hsign.
  - now rewrite (lockFunds_signing _ _ _ _ signingClient) by exact Hsign.
  - now rewrite (releaseFunds_signing _ _ _ _ signingClient) by exact Hsign.
  - apply parse_digits_decimal.
Qed.

Lemma amounts_cross_verbatim_witness :
  snd (run (EscrowClient.lockFunds signing_escrow "neutron1caller" "weather"
              "340282366920938463463374607431768211455" "token" (Int 120)
              None None)) =
  [ {| call_sender := "neutron1caller"; call_contract := "neutron1escrow";
       call_msg := EscrowClient.lock_funds "weather"
                     "340282366920938463463374607431768211455" "token" (Int 120);
       call_fee := "auto"; call_memo := None; call_funds := [] |} ].
Proof.
  exact (proj1 (amounts_cross_verbatim signing_escrow (fun _ => Returns lock_result)
                  "neutron1caller" "weather" "token"
                  "340282366920938463463374607431768211455" "600000"
                  (Int 120) (Int 7) None None eq_refl)).
Defined.

(** C7: for every sender address and escrow identifier, refundExpired
    sends the one message {refund_expired: {escrow_id}} with that
    identifier, from that sender, whoever it is; when the transaction
    commits it returns the transaction hash, and it fails only when the
    transaction does, with the same error. *)
Theorem refundExpired_sends_and_returns_hash
    (this : EscrowClient.t) signingClient (senderAddress : string)
    (escrowId : number) (funds : option (list Coin)) (memo : option string) :
  execute (EscrowClient.client this) = Some signingClient ->
  let sent :=
    {| call_sender := senderAddress;
       call_contract := EscrowClient.contractAddress this;
       call_msg := EscrowClient.refund_expired escrowId;
       call_fee := "auto"; call_memo := memo;
       call_funds := default [] funds |} in
  snd (run (EscrowClient.refundExpired this senderAddress escrowId funds memo))
  = [sent]
  /\ (forall result : ExecuteResult,
        signingClient sent = Returns result ->
        fst (run (EscrowClient.refundExpired this senderAddress escrowId funds memo))
        = Returns (result_transactionHash result))
  /\ (forall e : Thrown,
        signingClient sent = Throws e ->
        fst (run (EscrowClient.refundExpired this senderAddress escrowId funds memo))
        = Throws e).
Proof.
  intros Hsign sent.
  rewrite (refundExpired_signing _ _ _ _ signingClient) by exact Hsign.
  change (escrow_call this senderAddress funds memo
            (EscrowClient.refund_expired escrowId)) with sent.
  cbn [fst snd]. repeat split.
  - intros result ->. reflexivity.
  - intros e ->. reflexivity.
Qed.

Lemma refundExpired_sends_and_returns_hash_witness :
  run (EscrowClient.refundExpired signing_escrow "neutron1anyone" (Int 7)
         None (Some "refund")) =
  (Returns "A1B2C3",
   [ {| call_sender := "neutron1anyone"; call_contract := "neutron1escrow";
        call_msg := EscrowClient.refund_expired (Int 7);
        call_fee := "auto"; call_memo := Some "refund"; call_funds := [] |} ]).
Proof.
  destruct (refundExpired_sends_and_returns_hash signing_escrow
              (fun _ => Returns lock_result) "neutron1anyone" (Int 7) None
              (Some "refund") eq_refl) as (Hsent & Hok & _).
  apply injective_projections; [exact (Hok lock_result eq_refl) | exact Hsent].
Defined.

(* ===================================================================== *)
(** * Read-only clients cannot send transactions *)
(* ===================================================================== *)

(** C8: on a client without an [execute] member each of lockFunds,
    releaseFunds, refundExpired, claimFees, registerTool, updatePrice,
    pauseTool and resumeTool throws the Error "This method requires a
    signing client", and no execute call has been dispatched. *)
Theorem read_only_client_sends_nothing
    (escrow : EscrowClient.t) (registry : RegistryClient.t)
    (senderAddress toolId authToken : string) (maxFee usageFee price : Uint128)
    (expires escrowId : number) (denom : option string)
    (funds : option (list Coin)) (memo : option string) :
  execute (EscrowClient.client escrow) = None ->
  execute (RegistryClient.client registry) = None ->
  run (EscrowClient.lockFunds escrow senderAddress toolId maxFee authToken
         expires funds memo) = (Throws signing_client_required, [])
  /\ run (EscrowClient.releaseFunds escrow senderAddress escrowId usageFee
            funds memo) = (Throws signing_client_required, [])
  /\ run (EscrowClient.refundExpired escrow senderAddress escrowId funds memo)
     = (Throws signing_client_required, [])
  /\ run (EscrowClient.claimFees escrow senderAddress denom funds memo)
     = (Throws signing_client_required, [])
  /\ run (RegistryClient.registerTool registry senderAddress toolId price funds)
     = (Throws signing_client_required, [])
  /\ run (RegistryClient.updatePrice registry senderAddress toolId price funds)
     = (Throws signing_client_required, [])
  /\ run (RegistryClient.pauseTool registry senderAddress toolId funds)
     = (Throws signing_client_required, [])
  /\ run (RegistryClient.resumeTool registry senderAddress toolId funds)
     = (Throws signing_client_required, []).
Proof.
  intros He Hr.
  unfold run, EscrowClient.lockFunds, EscrowClient.releaseFunds,
    EscrowClient.refundExpired, EscrowClient.claimFees,
    RegistryClient.registerTool, RegistryClient.updatePrice,
    RegistryClient.pauseTool, RegistryClient.resumeTool, bind,
    EscrowClient.getSigningClient, RegistryClient.getSigningClient.
  rewrite He, Hr. repeat split.
Qed.

Lemma read_only_client_sends_nothing_witness :
  run (EscrowClient.lockFunds readonly_escrow "neutron1caller" "weather"
         "1000000" "token" (Int 120) None None) = (Throws signing_client_required, [])
  /\ run (RegistryClient.pauseTool registry_reader "neutron1provider" "weather" None)
     = (Throws signing_client_required, []).
Proof.
  pose proof (read_only_client_sends_nothing readonly_escrow registry_reader
                "neutron1caller" "weather" "token" "1000000" "600000" "1000"
                (Int 120) (Int 7) None None None eq_refl eq_refl) as H.
  split; [apply H |].
  destruct H as (_ & _ & _ & _ & _ & _ & H & _). exact H.
Defined.

(* ===================================================================== *)
(** * RegistryClient.getTool *)
(* ===================================================================== *)

Section GetTool.
Import RegistryClient.

Variable this : RegistryClient.t.
Variable toolId : string.

(** What the registry contract answers to the query of [getTool]. *)
Local Abbreviation answer :=
  (queryContractSmart (client this) (contractAddress this) (get_tool toolId)).

Lemma ToolResponse_to_json_shape (r : ToolResponse) :
  truthy (ToolResponse_to_json r) = true
  /\ typeof (ToolResponse_to_json r) = "object"
  /\ is_ToolResponse (ToolResponse_to_json r) = true
  /\ field "provider" (ToolResponse_to_json r) = Some (JString (provider r))
  /\ field "price" (ToolResponse_to_json r) = Some (JString (price r))
  /\ field "denom" (ToolResponse_to_json r) = Some (JString (denom r))
  /\ field "is_active" (ToolResponse_to_json r) = Some (JBool (is_active r))
  /\ field "description" (ToolResponse_to_json r) = Some (JString (description r)).
Proof. repeat split. Qed.

(** An answer comes back unchanged exactly when it is a non-null object. *)
Lemma getTool_returns (v : JsValue) :
  getTool this toolId = Returns v <->
  answer = Returns v /\ truthy v = true /\ typeof v = "object".
Proof.
  unfold getTool, try_catch.
  destruct answer as [response | e].
  - destruct (truthy response) eqn:Ht; cbn [negb orb].
    + destruct (String.eqb_spec (typeof response) "object") as [Hty | Hty];
        cbn [negb].
      * split; [intros [= <-]; auto | intros ([= ->] & _); reflexivity].
      * cbn. split; [discriminate |]. intros ([= ->] & _ & Hobj). contradiction.
    + cbn. split; [discriminate |]. intros ([= ->] & Htrue & _). congruence.
  - split; [| intros (Habs & _); discriminate Habs].
    destruct e as [e | s]; [| discriminate].
    destruct (includes (message e) "not found" || includes (message e) "No such tool");
      discriminate.
Qed.

(** Whatever does not come back as an answer is thrown as an [Error]. *)
Lemma getTool_throws_Error (e : Thrown) :
  getTool this toolId = Throws e -> exists err, e = ThrownError err.
Proof.
  unfold getTool, try_catch.
  destruct answer as [response | e0].
  - destruct (negb (truthy response) || negb (String.eqb (typeof response) "object")).
    + cbn. intros [= <-]. eauto.
    + discriminate.
  - destruct e0 as [e0 | s].
    + destruct (includes (message e0) "not found" || includes (message e0) "No such tool");
        intros [= <-]; eauto.
    + intros [= <-]. eauto.
Qed.

(** C4, as the code has it: getTool either returns what the registry
    answered, a non-null object (the tool record with its provider,
    price, denom, is_active and description whenever the registry
    answered with one), or it throws an Error.  When the query fails with an Error whose
    message contains "not found" or "No such tool", the Error thrown has
    exactly the message "Tool '<toolId>' not found in registry".  A
    failed query never makes getTool return. *)
Theorem getTool_tool_or_error :
  ((exists v, getTool this toolId = Returns v /\ answer = Returns v
              /\ truthy v = true /\ typeof v = "object")
   \/ (exists err, getTool this toolId = Throws (ThrownError err)))
  /\ (forall r : ToolResponse,
        answer = Returns (ToolResponse_to_json r) ->
        getTool this toolId = Returns (ToolResponse_to_json r)
        /\ is_ToolResponse (ToolResponse_to_json r) = true
        /\ field "provider" (ToolResponse_to_json r) = Some (JString (provider r))
        /\ field "price" (ToolResponse_to_json r) = Some (JString (price r))
        /\ field "denom" (ToolResponse_to_json r) = Some (JString (denom r))
        /\ field "is_active" (ToolResponse_to_json r) = Some (JBool (is_active r))
        /\ field "description" (ToolResponse_to_json r)
           = Some (JString (description r)))
  /\ (forall err : JsError,
        answer = Throws (ThrownError err) ->
        includes (message err) "not found" || includes (message err) "No such tool"
        = true ->
        getTool this toolId =
        Throws (ThrownError
                  {| name := "Error";
                     message := "Tool '" ++ toolId ++ "' not found in registry" |}))
  /\ (forall e : Thrown,
        answer = Throws e ->
        exists err, getTool this toolId = Throws (ThrownError err)).
Proof.
  split; [| split; [| split]].
  - destruct (getTool this toolId) as [v | e] eqn:Hget.
    + left. exists v. apply getTool_returns in Hget. tauto.
    + right. destruct (getTool_throws_Error e Hget) as [err ->]. eauto.
  - intros r Hans.
    destruct (ToolResponse_to_json_shape r) as (Ht & Hty & Hrest).
    split; [| exact Hrest].
    apply getTool_returns. auto.
  - intros err Hans Hinc. unfold getTool, try_catch. rewrite Hans, Hinc.
    reflexivity.
  - intros e Hans.
    destruct (getTool this toolId) as [v | e'] eqn:Hget.
    + apply getTool_returns in Hget as (Hv & _). congruence.
    + destruct (getTool_throws_Error e' Hget) as [err ->]. eauto.
Qed.

End GetTool.

(** C4 fails as stated: a registry that answers with the empty object,
    or with an empty array, makes getTool return that answer, which has
    no provider, price, denom, is_active or description. *)
Lemma getTool_returns_any_object :
  RegistryClient.getTool (registry_answering (JObject [])) "weather"
  = Returns (JObject [])
  /\ RegistryClient.is_ToolResponse (JObject []) = false
  /\ RegistryClient.field "provider" (JObject []) = None
  /\ RegistryClient.getTool (registry_answering (JArray [])) "weather"
     = Returns (JArray [])
  /\ RegistryClient.is_ToolResponse (JArray []) = false.
Proof. repeat split. Qed.

Example getTool_known :
  RegistryClient.getTool registry_reader "weather"
  = Returns (RegistryClient.ToolResponse_to_json weather_tool).
Proof. reflexivity. Qed.

Example getTool_unknown :
  RegistryClient.getTool registry_reader "translate"
  = Throws (ThrownError (new_Error "Tool 'translate' not found in registry")).
Proof. reflexivity. Qed.

Example getTool_null_answer :
  RegistryClient.getTool
    {| RegistryClient.client :=
         {| queryContractSmart := fun _ _ => Returns JNull; execute := None |};
       RegistryClient.contractAddress := "neutron1registry" |} "weather"
  = Throws (ThrownError (new_Error "Invalid response from registry contract")).
Proof. reflexivity. Qed.

Example getTool_non_error_thrown :
  RegistryClient.getTool
    {| RegistryClient.client :=
         {| queryContractSmart := fun _ _ => Throws (ThrownOther "socket hang up");
            execute := None |};
       RegistryClient.contractAddress := "neutron1registry" |} "weather"
  = Throws (ThrownError (new_Error "Failed to query tool: socket hang up")).
Proof. reflexivity. Qed.

(* ===================================================================== *)
(** * normalizeError *)
(* ===================================================================== *)

Section Normalize.
Import Errors.

Implicit Types (h : gmap loc Obj) (error : Value).

Lemma alloc_lookup (o : Obj) h : (alloc o h).2 !! (alloc o h).1 = Some o.
Proof. unfold alloc. cbn. apply lookup_insert_eq. Qed.

Lemma alloc_fresh (o : Obj) h : h !! (alloc o h).1 = None.
Proof. unfold alloc. cbn. apply not_elem_of_dom, is_fresh. Qed.

(** Allocation leaves the objects that exist as they are. *)
Lemma alloc_preserves (o : Obj) h (l : loc) (x : Obj) :
  h !! l = Some x -> (alloc o h).2 !! l = Some x.
Proof.
  intros Hl. pose proof (alloc_fresh o h) as Hfresh. unfold alloc in *. cbn in *.
  rewrite lookup_insert_ne; [exact Hl | congruence].
Qed.

Lemma construct_with_details h error (cls : SdkClass) (msg code : string) :
  fresh_sdk_error h msg
    (let '(d, h1) := originalError_details error h in
     construct cls msg (Some code) (Some d) h1).
Proof.
  unfold originalError_details, construct.
  destruct (alloc (Plain {[ "originalError" := error ]}) h) as [d h1] eqn:Hd.
  assert (h1 = (alloc (Plain {[ "originalError" := error ]}) h).2) as Hh1
    by now rewrite Hd.
  change (default "TOOLPAY_ERROR" (Some code)) with code.
  split; [| split].
  - exists cls, code, d. apply alloc_lookup.
  - destruct (h !! (alloc (SdkError cls (class_name cls) msg code d) h1).1)
      as [x |] eqn:Hx; [| reflexivity].
    apply (alloc_preserves (Plain {[ "originalError" := error ]})) in Hx.
    rewrite <- Hh1, alloc_fresh in Hx. discriminate.
  - intros l x Hl. apply alloc_preserves. rewrite Hh1. now apply alloc_preserves.
Qed.

(** An input that is not an SDK error gives a new SDK error with the
    input's string message, or the default one. *)
Lemma normalizeError_fresh h error (defaultMessage : option string) :
  instanceof_PayPerToolError h error = false ->
  fresh_sdk_error h (message_or_default h error defaultMessage)
    (normalizeError error defaultMessage h).
Proof.
  intros Hnot.
  assert (match hasMessage h error with
          | Some m => m
          | None => default "Unknown error" defaultMessage
          end = message_or_default h error defaultMessage) as Hmsg.
  { unfold message_or_default, get_property, hasMessage.
    destruct error as [| | b | n | s | l]; try reflexivity.
    destruct (h !! l) as [[props | nm m | cls nm m code det] |];
      try reflexivity.
    now destruct (props !! "message") as [[] |]. }
  remember (message_or_default h error defaultMessage) as msg eqn:Emsg.
  clear Emsg.
  assert (forall r,
             r = (if includes msg "network" || includes msg "connection" ||
                     includes msg "timeout"
                  then let '(d, h0) := originalError_details error h in
                       new_NetworkError msg (Some d) h0
                  else if includes msg "wallet" || includes msg "signer" ||
                          includes msg "account"
                  then let '(d, h0) := originalError_details error h in
                       new_WalletError msg (Some d) h0
                  else if includes msg "contract" || includes msg "execute" ||
                          includes msg "query"
                  then let '(d, h0) := originalError_details error h in
                       new_ContractError msg (Some d) h0
                  else let '(d, h0) := originalError_details error h in
                       new_PayPerToolError msg (Some "UNKNOWN_ERROR") (Some d) h0) ->
             fresh_sdk_error h msg r) as Hbody.
  { intros r ->.
    destruct (includes msg "network" || includes msg "connection" ||
              includes msg "timeout"); [apply construct_with_details |].
    destruct (includes msg "wallet" || includes msg "signer" ||
              includes msg "account"); [apply construct_with_details |].
    destruct (includes msg "contract" || includes msg "execute" ||
              includes msg "query"); apply construct_with_details. }
  unfold normalizeError.
  destruct error; try rewrite Hnot; rewrite Hmsg; apply Hbody; reflexivity.
Qed.

(** An SDK error comes back as it is, in the store as it is. *)
Lemma normalizeError_sdk_error h (l : loc) (defaultMessage : option string) :
  instanceof_PayPerToolError h (VRef l) = true ->
  normalizeError (VRef l) defaultMessage h = (l, h).
Proof. intros Hinst. unfold normalizeError. now rewrite Hinst. Qed.

(** C9: normalizeError returns, for every input, an instance of
    PayPerToolError (of the class or of a subclass) whose message is the
    input's string message when it has one and the default message
    otherwise; an input that is already such an instance is returned as
    the same object in an unchanged store; and normalizing the result
    again gives the same result. *)
Theorem normalizeError_total_idempotent h error (defaultMessage : option string) :
  let r := normalizeError error defaultMessage h in
  (exists cls name code details,
      r.2 !! r.1 =
      Some (SdkError cls name (message_or_default h error defaultMessage)
              code details))
  /\ (instanceof_PayPerToolError h error = true ->
      VRef r.1 = error /\ r.2 = h)
  /\ (forall defaultMessage' : option string,
        normalizeError (VRef r.1) defaultMessage' r.2 = r)
  /\ (forall l x, h !! l = Some x -> r.2 !! l = Some x).
Proof.
  intros r. subst r.
  destruct (instanceof_PayPerToolError h error) eqn:Hinst.
  - destruct error as [| | b | n | s | l]; try discriminate Hinst.
    rewrite (normalizeError_sdk_error h l defaultMessage Hinst). cbn [fst snd].
    split; [| split; [| split]].
    + unfold instanceof_PayPerToolError in Hinst.
      unfold message_or_default, get_property.
      destruct (h !! l) as [[props | nm m | cls nm m code det] |];
        try discriminate Hinst.
      cbn. eauto.
    + auto.
    + intros d'. now apply normalizeError_sdk_error.
    + auto.
  - destruct (normalizeError_fresh h error defaultMessage Hinst)
      as ((cls & code & det & Hnew) & _ & Hkeep).
    split; [| split; [| split]].
    + eauto.
    + discriminate.
    + intros d'.
      destruct (normalizeError error defaultMessage h) as [l' h'] eqn:Hr.
      cbn [fst snd] in *. apply normalizeError_sdk_error.
      unfold instanceof_PayPerToolError. now rewrite Hnew.
    + exact Hkeep.
Qed.

End Normalize.

Example normalizeError_string :
  let r := Errors.normalizeError (Errors.VString "boom") None ∅ in
  r.2 !! r.1 =
  Some (Errors.SdkError Errors.PayPerToolError "PayPerToolError" "Unknown error"
          "UNKNOWN_ERROR" 1%positive)
  /\ r.2 !! 1%positive
     = Some (Errors.Plain {[ "originalError" := Errors.VString "boom" ]}).
Proof. vm_compute. split; reflexivity. Qed.

Example normalizeError_timeout :
  let h : gmap Errors.loc Errors.Obj :=
    {[ 1%positive := Errors.ErrorObj "Error" "request timeout" ]} in
  let r := Errors.normalizeError (Errors.VRef 1%positive) None h in
  r.2 !! r.1 =
  Some (Errors.SdkError Errors.NetworkError "NetworkError" "request timeout"
          "NETWORK_ERROR" 2%positive)
  /\ Errors.normalizeError (Errors.VRef r.1) (Some "other default") r.2 = r.
Proof. vm_compute. split; reflexivity. Qed.

(* ===================================================================== *)
(** * Further properties: transactions are sent once and fail as the chain does *)
(* ===================================================================== *)

(** X1: with a signing client, lockFunds, releaseFunds and claimFees
    each dispatch exactly one execute call, whether the transaction
    commits or not; a rejected transaction makes the method throw the
    chain's own error (lockFunds builds no result from it), and a
    committed one makes releaseFunds and claimFees return its
    transaction hash. *)
Theorem escrow_transactions_sent_once
    (this : EscrowClient.t) signingClient
    (senderAddress toolId authToken : string) (maxFee usageFee : Uint128)
    (expires escrowId : number) (denom : option string)
    (funds : option (list Coin)) (memo : option string) :
  execute (EscrowClient.client this) = Some signingClient ->
  let lock := escrow_call this senderAddress funds memo
                (EscrowClient.lock_funds toolId maxFee authToken expires) in
  let rel := escrow_call this senderAddress funds memo
               (EscrowClient.release escrowId usageFee) in
  (snd (run (EscrowClient.lockFunds this senderAddress toolId maxFee authToken
               expires funds memo)) = [lock]
   /\ forall e, signingClient lock = Throws e ->
        fst (run (EscrowClient.lockFunds this senderAddress toolId maxFee
                    authToken expires funds memo)) = Throws e)
  /\ run (EscrowClient.releaseFunds this senderAddress escrowId usageFee funds memo)
     = (hash_or_error (signingClient rel), [rel])
  /\ (exists msg,
        run (EscrowClient.claimFees this senderAddress denom funds memo)
        = (hash_or_error
             (signingClient (escrow_call this senderAddress funds memo msg)),
           [escrow_call this senderAddress funds memo msg])).
Proof.
  intros Hsign lock rel. split; [split |]; [| | split].
  - now rewrite (lockFunds_signing _ _ _ _ signingClient) by exact Hsign.
  - intros e He.
    rewrite (lockFunds_signing _ _ _ _ signingClient) by exact Hsign.
    cbn [fst]. fold lock. now rewrite He.
  - now rewrite (releaseFunds_signing _ _ _ _ signingClient) by exact Hsign.
  - eexists.
    now rewrite (claimFees_signing _ _ _ _ signingClient) by exact Hsign.
Qed.

Lemma escrow_transactions_sent_once_witness :
  fst (run (EscrowClient.lockFunds rejecting_escrow "neutron1caller" "weather"
              "1000000" "token" (Int 120) None None))
  = Throws (ThrownError (new_Error "out of gas")).
Proof.
  refine (proj2 (proj1 (escrow_transactions_sent_once rejecting_escrow
            (fun _ => Throws (ThrownError (new_Error "out of gas")))
            "neutron1caller" "weather" "token" "1000000" "600000" (Int 120)
            (Int 7) None None None eq_refl)) _ eq_refl).
Defined.

Section RegistryTransactions.
Import RegistryClient.

Variable this : RegistryClient.t.
Variable signingClient : ExecuteCall RegistryExecuteMsg -> Result ExecuteResult.
Hypothesis Hsign : execute (client this) = Some signingClient.
Variable senderAddress toolId : string.
Variable funds : option (list Coin).

Local Abbreviation call := (registry_call this senderAddress funds).

Lemma registerTool_signing (price : Uint128) :
  run (registerTool this senderAddress toolId price funds) =
  (hash_or_error (signingClient (call (register_tool toolId price None None))),
   [call (register_tool toolId price None None)]).
Proof.
  unfold run, registerTool, bind, getSigningClient. rewrite Hsign.
  unfold ret, dispatch, hash_or_error. cbn [app].
  fold (call (register_tool toolId price None None)).
  destruct (signingClient _); reflexivity.
Qed.

Lemma updatePrice_signing (price : Uint128) :
  run (updatePrice this senderAddress toolId price funds) =
  (hash_or_error (signingClient (call (update_price toolId price))),
   [call (update_price toolId price)]).
Proof.
  unfold run, updatePrice, bind, getSigningClient. rewrite Hsign.
  unfold ret, dispatch, hash_or_error. cbn [app].
  fold (call (update_price toolId price)).
  destruct (signingClient _); reflexivity.
Qed.

Lemma pauseTool_signing :
  run (pauseTool this senderAddress toolId funds) =
  (hash_or_error (signingClient (call (pause_tool toolId))),
   [call (pause_tool toolId)]).
Proof.
  unfold run, pauseTool, bind, getSigningClient. rewrite Hsign.
  unfold ret, dispatch, hash_or_error. cbn [app].
  fold (call (pause_tool toolId)).
  destruct (signingClient _); reflexivity.
Qed.

Lemma resumeTool_signing :
  run (resumeTool this senderAddress toolId funds) =
  (hash_or_error (signingClient (call (resume_tool toolId))),
   [call (resume_tool toolId)]).
Proof.
  unfold run, resumeTool, bind, getSigningClient. rewrite Hsign.
  unfold ret, dispatch, hash_or_error. cbn [app].
  fold (call (resume_tool toolId)).
  destruct (signingClient _); reflexivity.
Qed.

End RegistryTransactions.

(** X2: with a signing client, registerTool, updatePrice, pauseTool and
    resumeTool each dispatch exactly one execute call to the registry
    address, with fee 'auto', no memo, the given funds (none when left
    out) and the message for the given tool; registerTool's message
    carries the tool id and the price and never a denom or a
    description.  Each returns the transaction hash when the transaction
    commits and throws the chain's error when it does not. *)
Theorem registry_transactions_sent_once
    (this : RegistryClient.t) signingClient (senderAddress toolId : string)
    (price : Uint128) (funds : option (list Coin)) :
  execute (RegistryClient.client this) = Some signingClient ->
  let sent msg :=
    {| call_sender := senderAddress;
       call_contract := RegistryClient.contractAddress this;
       call_msg := msg; call_fee := "auto"; call_memo := None;
       call_funds := default [] funds |} in
  run (RegistryClient.registerTool this senderAddress toolId price funds)
  = (hash_or_error
       (signingClient (sent (RegistryClient.register_tool toolId price None None))),
     [sent (RegistryClient.register_tool toolId price None None)])
  /\ run (RegistryClient.updatePrice this senderAddress toolId price funds)
     = (hash_or_error
          (signingClient (sent (RegistryClient.update_price toolId price))),
        [sent (RegistryClient.update_price toolId price)])
  /\ run (RegistryClient.pauseTool this senderAddress toolId funds)
     = (hash_or_error (signingClient (sent (RegistryClient.pause_tool toolId))),
        [sent (RegistryClient.pause_tool toolId)])
  /\ run (RegistryClient.resumeTool this senderAddress toolId funds)
     = (hash_or_error (signingClient (sent (RegistryClient.resume_tool toolId))),
        [sent (RegistryClient.resume_tool toolId)]).
Proof.
  intros Hsign sent. repeat split.
  - apply (registerTool_signing this signingClient Hsign).
  - apply (updatePrice_signing this signingClient Hsign).
  - apply (pauseTool_signing this signingClient Hsign).
  - apply (resumeTool_signing this signingClient Hsign).
Qed.

Lemma registry_transactions_sent_once_witness :
  run (RegistryClient.registerTool signing_registry "neutron1provider" "weather"
         "1000" None)
  = (Returns "A1B2C3",
     [ {| call_sender := "neutron1provider"; call_contract := "neutron1registry";
          call_msg := RegistryClient.register_tool "weather" "1000" None None;
          call_fee := "auto"; call_memo := None; call_funds := [] |} ]).
Proof.
  exact (proj1 (registry_transactions_sent_once signing_registry
                  (fun _ => Returns lock_result) "neutron1provider" "weather"
                  "1000" None eq_refl)).
Defined.

(* ===================================================================== *)
(** * Further properties: what [lockFunds] reads from the events *)
(* ===================================================================== *)

Section RelevantEvents.

Lemma attribute_values_relevant (k : string) (attrs : list Attribute) :
  k = "escrow_id" \/ k = "denom" ->
  attribute_values k (List.filter relevant_attribute attrs)
  = attribute_values k attrs.
Proof.
  intros Hk. unfold attribute_values. f_equal.
  induction attrs as [| a attrs IH]; [reflexivity |].
  cbn [List.filter]. unfold relevant_attribute at 1.
  destruct (String.eqb_spec (key a) k) as [Heq | Hne].
  - assert (String.eqb (key a) "escrow_id" || String.eqb (key a) "denom" = true)
      as -> by (rewrite Heq; destruct Hk as [-> | ->]; reflexivity).
    cbn [List.filter]. rewrite (proj2 (String.eqb_eq _ _) Heq). now f_equal.
  - destruct (String.eqb (key a) "escrow_id" || String.eqb (key a) "denom").
    + cbn [List.filter]. rewrite (proj2 (String.eqb_neq _ _) Hne). exact IH.
    + exact IH.
Qed.

Lemma wasm_attribute_values_relevant (k : string) (evs : list Event) :
  k = "escrow_id" \/ k = "denom" ->
  wasm_attribute_values k (relevant_events evs) = wasm_attribute_values k evs.
Proof.
  intros Hk. unfold wasm_attribute_values, relevant_events.
  induction evs as [| ev evs IH]; [reflexivity |].
  cbn [List.filter flat_map].
  destruct (String.eqb (type ev) "wasm") eqn:Hty.
  - cbn [map flat_map type attributes]. rewrite Hty, IH.
    now rewrite attribute_values_relevant.
  - exact IH.
Qed.

End RelevantEvents.

(** X3: the result of a successful lockFunds depends on the transaction
    result only through its hash and through the escrow_id and denom
    attributes of its wasm events: events of any other type (whatever
    attributes they carry) and attributes with any other key change
    nothing. *)
Theorem lockFunds_reads_only_wasm_escrow_id_and_denom
    (this : EscrowClient.t) signingClient
    (senderAddress toolId maxFee authToken : string) (expires : number)
    (funds : option (list Coin)) (memo : option string)
    (result : ExecuteResult) :
  execute (EscrowClient.client this) = Some signingClient ->
  signingClient
    {| call_sender := senderAddress;
       call_contract := EscrowClient.contractAddress this;
       call_msg := EscrowClient.lock_funds toolId maxFee authToken expires;
       call_fee := "auto"; call_memo := memo;
       call_funds := default [] funds |} = Returns result ->
  fst (run (EscrowClient.lockFunds this senderAddress toolId maxFee authToken
              expires funds memo)) =
  Returns {| EscrowClient.transactionHash := result_transactionHash result;
             EscrowClient.escrowId :=
               fst (EscrowClient.scan_events (relevant_events (events result)));
             EscrowClient.denom :=
               snd (EscrowClient.scan_events (relevant_events (events result))) |}.
Proof.
  intros Hsign Hok.
  rewrite (lockFunds_signing _ _ _ _ signingClient) by exact Hsign.
  unfold escrow_call. cbn [fst]. rewrite Hok, !scan_events_latest.
  rewrite !wasm_attribute_values_relevant by auto. reflexivity.
Qed.

Lemma lockFunds_reads_only_wasm_escrow_id_and_denom_witness :
  fst (run (EscrowClient.lockFunds
              (escrow_with_events
                 [ {| type := "transfer";
                      attributes := [ {| key := "escrow_id"; value := "99" |};
                                      {| key := "denom"; value := "uatom" |} ] |};
                   {| type := "wasm";
                      attributes := [ {| key := "action"; value := "lock_funds" |};
                                      {| key := "escrow_id"; value := "7" |};
                                      {| key := "denom"; value := "untrn" |} ] |};
                   {| type := "message";
                      attributes := [ {| key := "escrow_id"; value := "100" |} ] |} ])
              "neutron1caller" "weather" "1000000" "token" (Int 120) None None))
  = Returns {| EscrowClient.transactionHash := "A1B2C3";
               EscrowClient.escrowId := Int 7;
               EscrowClient.denom := Some "untrn" |}.
Proof.
  exact (lockFunds_reads_only_wasm_escrow_id_and_denom
           (escrow_with_events _) _ "neutron1caller" "weather" "1000000" "token"
           (Int 120) None None _ eq_refl eq_refl).
Defined.

(* ===================================================================== *)
(** * Further properties: how far a parsed identifier can be off *)
(* ===================================================================== *)

Section Rounding.
Local Open Scope N_scope.

(** Rounding to 53 significant bits moves an integer by at most half a
    unit of the last kept bit. *)
Lemma round_to_double_error (m : N) :
  53 < N.size m ->
  let half := 2 ^ (N.size m - 54) in
  round_to_double m <= m + half /\ m <= round_to_double m + half.
Proof.
  intros Hsz half. unfold round_to_double.
  destruct (N.leb_spec (N.size m) 53) as [Hle | _]; [lia |].
  set (sh := N.size m - 53).
  assert (sh - 1 = N.size m - 54) as Hsh1 by lia.
  rewrite N.shiftl_1_l, Hsh1. fold half.
  rewrite N.shiftr_div_pow2, N.land_ones, N.shiftl_mul_pow2.
  assert (2 ^ sh = 2 * half) as Hpow.
  { unfold half. rewrite <- N.pow_succ_r'. f_equal. lia. }
  pose proof (N.div_mod m (2 ^ sh) ltac:(apply N.pow_nonzero; discriminate)) as Hdm.
  pose proof (N.mod_lt m (2 ^ sh) ltac:(apply N.pow_nonzero; discriminate)) as Hlt.
  set (q := m / 2 ^ sh) in *. set (r := m mod 2 ^ sh) in *.
  rewrite Hpow in *.
  destruct (half <? r) eqn:Hhr; cbn [orb].
  - apply N.ltb_lt in Hhr. nia.
  - apply N.ltb_ge in Hhr.
    destruct (N.eqb_spec r half) as [Heq | Hne]; cbn [andb].
    + destruct (N.odd q); nia.
    + nia.
Qed.

Lemma size_below_two64 (n : N) : n < 2 ^ 64 -> N.size n <= 64.
Proof.
  intros Hn. destruct (N.le_gt_cases (N.size n) 64) as [Hle | Hgt]; [exact Hle |].
  exfalso. pose proof (N.size_le n) as Hsz. rewrite N.succ_double_spec in Hsz.
  assert (2 ^ 65 <= 2 ^ N.size n) by (apply N.pow_le_mono_r; lia).
  change (2 ^ 65) with (2 * 2 ^ 64) in *. lia.
Qed.

(** For an unsigned 64-bit integer the Number value is an integer at
    most 1024 away. *)
Lemma number_of_u64 (n : N) :
  n < 2 ^ 64 ->
  exists z : Z,
    number_of_integer false n = Int z /\ (Z.abs (z - Z.of_N n) <= 1024)%Z.
Proof.
  intros Hn.
  destruct (N.le_gt_cases n two53) as [Hsmall | Hbig].
  - exists (Z.of_N n). rewrite number_of_integer_exact by exact Hsmall.
    split; [reflexivity | lia].
  - assert (53 < N.size n) as Hsz.
    { destruct (N.le_gt_cases (N.size n) 53) as [Hle | Hgt]; [| exact Hgt].
      pose proof (N.size_gt n) as Hgt.
      assert (2 ^ N.size n <= 2 ^ 53) by (apply N.pow_le_mono_r; lia).
      change (2 ^ 53) with two53 in *. lia. }
    pose proof (size_below_two64 n Hn) as Hsz64.
    destruct (round_to_double_error n Hsz) as [Hup Hdown].
    assert (2 ^ (N.size n - 54) <= 2 ^ 10) as Hhalf
      by (apply N.pow_le_mono_r; lia).
    change (2 ^ 10) with 1024 in Hhalf.
    exists (Z.of_N (round_to_double n)). split; [| lia].
    unfold number_of_integer.
    destruct (N.eqb_spec n 0) as [-> | _]; [unfold two53 in Hbig; lia |].
    destruct (N.leb_spec (N.shiftl 1 1024) (round_to_double n)) as [Hinf | _];
      [| reflexivity].
    exfalso. rewrite N.shiftl_1_l in Hinf.
    assert (2 ^ 65 <= 2 ^ 1024) by (apply N.pow_le_mono_r; lia).
    change (2 ^ 65) with (2 * 2 ^ 64) in *. lia.
Qed.

End Rounding.

(** X4: for every unsigned 64-bit identifier, a successful lockFunds
    whose wasm escrow_id attribute is the decimal representation of the
    identifier returns an integer escrowId (never NaN or an infinity)
    that differs from the identifier by at most 1024. *)
Theorem lockFunds_escrowId_within_1024
    (this : EscrowClient.t) signingClient
    (senderAddress toolId maxFee authToken : string) (expires : number)
    (funds : option (list Coin)) (memo : option string)
    (result : ExecuteResult) (ev : Event) (n : N) :
  (n < 2 ^ 64)%N ->
  execute (EscrowClient.client this) = Some signingClient ->
  signingClient
    {| call_sender := senderAddress;
       call_contract := EscrowClient.contractAddress this;
       call_msg := EscrowClient.lock_funds toolId maxFee authToken expires;
       call_fee := "auto"; call_memo := memo;
       call_funds := default [] funds |} = Returns result ->
  In ev (events result) ->
  type ev = "wasm" ->
  In {| key := "escrow_id"; value := decimal n |} (attributes ev) ->
  (forall v', In v' (wasm_attribute_values "escrow_id" (events result)) ->
              v' = decimal n) ->
  exists r z,
    fst (run (EscrowClient.lockFunds this senderAddress toolId maxFee authToken
                expires funds memo)) = Returns r
    /\ EscrowClient.escrowId r = Int z
    /\ (Z.abs (z - Z.of_N n) <= 1024)%Z.
Proof.
  intros Hn Hsign Hok Hev Hty Hid Hv.
  destruct (number_of_u64 n Hn) as (z & Hz & Hclose).
  rewrite (lockFunds_signing _ _ _ _ signingClient) by exact Hsign.
  unfold escrow_call. cbn [fst]. rewrite Hok, scan_events_latest. cbn [fst snd].
  eexists. exists z. split; [reflexivity |]. cbn [EscrowClient.escrowId].
  split; [| exact Hclose].
  rewrite (latest_unique parseInt _ (decimal n)).
  - now rewrite parseInt_decimal.
  - now apply (wasm_attribute_values_In "escrow_id" _ ev
                 {| key := "escrow_id"; value := decimal n |}).
  - exact Hv.
Qed.

Lemma lockFunds_escrowId_within_1024_witness :
  exists r z,
    fst (run (EscrowClient.lockFunds
                (escrow_with_events
                   [ {| type := "wasm";
                        attributes := [ {| key := "escrow_id";
                                           value := decimal 18446744073709551615 |} ] |} ])
                "neutron1caller" "weather" "1000000" "token" (Int 120) None None))
    = Returns r
    /\ EscrowClient.escrowId r = Int z
    /\ (Z.abs (z - 18446744073709551615) <= 1024)%Z.
Proof.
  refine (lockFunds_escrowId_within_1024
            (escrow_with_events _) _ "neutron1caller" "weather" "1000000" "token"
            (Int 120) None None _
            {| type := "wasm";
               attributes := [ {| key := "escrow_id";
                                  value := decimal 18446744073709551615 |} ] |}
            18446744073709551615 _ eq_refl eq_refl _ eq_refl _ _).
  - reflexivity.
  - left; reflexivity.
  - left; reflexivity.
  - intros v' [<- | []]; reflexivity.
Defined.

(* ===================================================================== *)
(** * Further properties: the failures of [getTool] *)
(* ===================================================================== *)

Section Substrings.

Lemma append_cons (c : ascii) (a b : string) :
  String c a ++ b = String c (a ++ b).
Proof. reflexivity. Qed.

Lemma append_assoc (a b c : string) : (a ++ b) ++ c = a ++ b ++ c.
Proof.
  induction a as [| x a IH]; [reflexivity |].
  rewrite !append_cons. now f_equal.
Qed.

(** [startsWith] tests for a prefix. *)
Lemma startsWith_prefix (p s : string) :
  startsWith p s = true <-> exists b, s = p ++ b.
Proof.
  revert s. induction p as [| x p IH]; intros s.
  - split; [intros _; now exists s | reflexivity].
  - destruct s as [| y s]; cbn [startsWith].
    + split; [discriminate | intros [b Hb]; discriminate Hb].
    + rewrite andb_true_iff, Ascii.eqb_eq, IH. split.
      * intros (-> & b & ->). now exists b.
      * intros [b Hb]. rewrite append_cons in Hb. injection Hb as -> ->. eauto.
Qed.

(** [includes] tests for a substring. *)
Lemma includes_substring (s p : string) :
  includes s p = true <-> exists a b, s = a ++ p ++ b.
Proof.
  split.
  - induction s as [| c s IH]; cbn [includes]; rewrite orb_true_iff.
    + intros [Hpre | Habs]; [| discriminate].
      apply startsWith_prefix in Hpre as [b Hb]. now exists "", b.
    + intros [Hpre | Hin].
      * apply startsWith_prefix in Hpre as [b Hb]. now exists "", b.
      * destruct (IH Hin) as (a & b & ->). now exists (String c a), b.
  - intros (a & b & ->). induction a as [| c a IH].
    + assert (startsWith p (p ++ b) = true) as Hpre
        by (apply startsWith_prefix; eauto).
      change ("" ++ p ++ b) with (p ++ b).
      destruct (p ++ b); cbn [includes]; rewrite Hpre; reflexivity.
    + rewrite append_cons. cbn [includes]. rewrite IH. apply orb_true_r.
Qed.

End Substrings.

Section GetToolFailures.
Import RegistryClient.

Variable this : RegistryClient.t.
Variable toolId : string.

Local Abbreviation answer :=
  (queryContractSmart (client this) (contractAddress this) (get_tool toolId)).

(** X5: an answer that is not a non-null object (undefined, null, a
    boolean, a number, a string) makes getTool throw the Error "Invalid
    response from registry contract"; a query Error whose message has
    neither "not found" nor "No such tool" is rethrown as it is; and a
    thrown value that is not an Error is wrapped as the Error "Failed to
    query tool: " followed by its string form, even when that string
    contains "not found". *)
Theorem getTool_failures :
  (forall v : JsValue,
      answer = Returns v ->
      truthy v = false \/ typeof v <> "object" ->
      getTool this toolId =
      Throws (ThrownError
                {| name := "Error";
                   message := "Invalid response from registry contract" |}))
  /\ (forall err : JsError,
        answer = Throws (ThrownError err) ->
        includes (message err) "not found" = false ->
        includes (message err) "No such tool" = false ->
        getTool this toolId = Throws (ThrownError err))
  /\ (forall s : string,
        answer = Throws (ThrownOther s) ->
        getTool this toolId =
        Throws (ThrownError
                  {| name := "Error"; message := "Failed to query tool: " ++ s |})).
Proof.
  split; [| split].
  - intros v Hans Hbad. unfold getTool, try_catch. rewrite Hans.
    assert (negb (truthy v) || negb (String.eqb (typeof v) "object") = true) as ->.
    { destruct Hbad as [-> | Hty]; [reflexivity |].
      apply String.eqb_neq in Hty. rewrite Hty. apply orb_true_r. }
    reflexivity.
  - intros err Hans Hnf Hns. unfold getTool, try_catch.
    now rewrite Hans, Hnf, Hns.
  - intros s Hans. unfold getTool, try_catch. now rewrite Hans.
Qed.

(** X6: getTool throws the Error "Tool '<toolId>' not found in registry"
    exactly when the query itself failed with an Error whose message has
    "not found" or "No such tool" as a substring; no answer and no other
    failure produces it. *)
Theorem getTool_not_found_iff :
  getTool this toolId =
  Throws (ThrownError
            {| name := "Error";
               message := "Tool '" ++ toolId ++ "' not found in registry" |})
  <->
  exists err : JsError,
    answer = Throws (ThrownError err)
    /\ ((exists a b, message err = a ++ "not found" ++ b)
        \/ (exists a b, message err = a ++ "No such tool" ++ b)).
Proof.
  split.
  - unfold getTool, try_catch.
    destruct answer as [v | [err | s]].
    + destruct (negb (truthy v) || negb (String.eqb (typeof v) "object"));
        cbn; intros H; [| discriminate H].
      injection H as H. discriminate H.
    + destruct (includes (message err) "not found") eqn:Hnf; cbn [orb].
      * intros _. exists err. split; [reflexivity |]. left.
        now apply includes_substring.
      * destruct (includes (message err) "No such tool") eqn:Hns.
        -- intros _. exists err. split; [reflexivity |]. right.
           now apply includes_substring.
        -- intros [= ->]. cbn [message] in Hnf.
           assert (includes ("Tool '" ++ toolId ++ "' not found in registry")
                     "not found" = true) as Habs.
           { apply includes_substring.
             exists ("Tool '" ++ toolId ++ "' "), " in registry".
             now rewrite !append_assoc. }
           congruence.
    + intros H. injection H as H. discriminate H.
  - intros (err & Hans & Hphrase). unfold getTool, try_catch. rewrite Hans.
    assert (includes (message err) "not found"
            || includes (message err) "No such tool" = true) as ->.
    { destruct Hphrase as [Hnf | Hns].
      - apply includes_substring in Hnf. now rewrite Hnf.
      - apply includes_substring in Hns. rewrite Hns. apply orb_true_r. }
    reflexivity.
Qed.

End GetToolFailures.

(* ===================================================================== *)
(** * Further properties: the error classes and [normalizeError] *)
(* ===================================================================== *)

Section ErrorClasses.
Import Errors.

Implicit Types (h : gmap loc Obj) (error : Value).

Lemma alloc_distinct (o1 o2 : Obj) h :
  (alloc o2 (alloc o1 h).2).1 <> (alloc o1 h).1.
Proof.
  intros Heq. pose proof (alloc_fresh o2 (alloc o1 h).2) as Hfresh.
  rewrite Heq, alloc_lookup in Hfresh. discriminate.
Qed.

(** The constructor body, whatever class and code it is run for. *)
Lemma construct_object (cls : SdkClass) (msg : string) (code : option string)
    (details : option loc) h :
  let r := construct cls msg code details h in
  (exists d,
      r.2 !! r.1 = Some (SdkError cls (class_name cls) msg
                           (default "TOOLPAY_ERROR" code) d)
      /\ (forall d0, details = Some d0 -> d = d0)
      /\ (details = None ->
          h !! d = None /\ r.2 !! d = Some (Plain ∅) /\ d <> r.1))
  /\ h !! r.1 = None
  /\ (forall l x, h !! l = Some x -> r.2 !! l = Some x).
Proof.
  unfold construct. destruct details as [d0 |].
  - cbn zeta. split; [| split].
    + exists d0. split; [apply alloc_lookup |]. split; [congruence | discriminate].
    + apply alloc_fresh.
    + intros l x. apply alloc_preserves.
  - destruct (alloc (Plain ∅) h) as [d h1] eqn:Hd.
    assert (d = (alloc (Plain ∅) h).1 /\ h1 = (alloc (Plain ∅) h).2) as [Ed Eh1]
      by now rewrite Hd.
    cbn zeta. split; [| split].
    + exists d. split; [apply alloc_lookup |]. split; [discriminate |].
      intros _. split; [| split].
      * rewrite Ed. apply alloc_fresh.
      * apply alloc_preserves. rewrite Ed, Eh1. apply alloc_lookup.
      * rewrite Ed, Eh1. intros Heq. symmetry in Heq. revert Heq.
        apply alloc_distinct.
    + match goal with |- h !! ?l = None =>
        destruct (h !! l) as [x |] eqn:Hx; [| reflexivity] end.
      rewrite Eh1 in Hx. apply (alloc_preserves (Plain ∅)) in Hx.
      rewrite alloc_fresh in Hx. discriminate.
    + intros l x Hl. apply alloc_preserves. rewrite Eh1. now apply alloc_preserves.
Qed.

Lemma sdk_new_construct (cls : SdkClass) (msg : string) (details : option loc) h :
  exists code,
    sdk_new cls msg details h = construct cls msg code details h
    /\ default "TOOLPAY_ERROR" code = class_code cls.
Proof.
  destruct cls;
    [exists None | exists (Some "CONFIGURATION_ERROR") | exists (Some "NETWORK_ERROR")
     | exists (Some "CONTRACT_ERROR") | exists (Some "ESCROW_VERIFICATION_ERROR")
     | exists (Some "USAGE_REPORTING_ERROR") | exists (Some "WALLET_ERROR")];
    split; reflexivity.
Qed.

(** The object a constructor of errors.ts builds. *)
Lemma sdk_new_object (cls : SdkClass) (msg : string) (details : option loc) h :
  let r := sdk_new cls msg details h in
  (exists d,
      r.2 !! r.1 = Some (SdkError cls (class_name cls) msg (class_code cls) d)
      /\ (forall d0, details = Some d0 -> d = d0)
      /\ (details = None ->
          h !! d = None /\ r.2 !! d = Some (Plain ∅) /\ d <> r.1))
  /\ h !! r.1 = None
  /\ (forall l x, h !! l = Some x -> r.2 !! l = Some x).
Proof.
  intros r. subst r.
  destruct (sdk_new_construct cls msg details h) as (code & -> & Hcode).
  destruct (construct_object cls msg code details h) as ((d & Hobj & Hd) & Hnew & Hkeep).
  rewrite Hcode in Hobj. eauto.
Qed.

(** X7: constructing an instance of any class of errors.ts allocates a
    new object with the class's name and code and the given message,
    and leaves every existing object as it is; its details are the
    object given, or else a new empty object of its own; and
    normalizeError returns the instance itself, in an unchanged
    store. *)
Theorem sdk_new_instance (cls : SdkClass) (msg : string) (details : option loc) h :
  let r := sdk_new cls msg details h in
  (exists d,
      r.2 !! r.1 = Some (SdkError cls (class_name cls) msg (class_code cls) d)
      /\ (forall d0, details = Some d0 -> d = d0)
      /\ (details = None ->
          h !! d = None /\ r.2 !! d = Some (Plain ∅) /\ d <> r.1))
  /\ h !! r.1 = None
  /\ (forall l x, h !! l = Some x -> r.2 !! l = Some x)
  /\ (forall defaultMessage : option string,
        normalizeError (VRef r.1) defaultMessage r.2 = r).
Proof.
  intros r. subst r.
  destruct (sdk_new_object cls msg details h) as ((d & Hobj & Hd) & Hnew & Hkeep).
  split; [eauto | split; [exact Hnew | split; [exact Hkeep |]]].
  intros defaultMessage.
  destruct (sdk_new cls msg details h) as [l h'] eqn:Hr. cbn [fst snd] in *.
  apply normalizeError_sdk_error. unfold instanceof_PayPerToolError.
  now rewrite Hobj.
Qed.

(** X8: two errors constructed without details never share their
    details object: each gets an empty object of its own, and both are
    in the store afterwards. *)
Theorem default_details_not_shared (cls1 cls2 : SdkClass) (msg1 msg2 : string) h :
  let r1 := sdk_new cls1 msg1 None h in
  let r2 := sdk_new cls2 msg2 None r1.2 in
  exists d1 d2,
    get_property r2.2 (VRef r1.1) "details" = Some (VRef d1)
    /\ get_property r2.2 (VRef r2.1) "details" = Some (VRef d2)
    /\ r2.2 !! d1 = Some (Plain ∅)
    /\ r2.2 !! d2 = Some (Plain ∅)
    /\ d1 <> d2 /\ r1.1 <> r2.1.
Proof.
  intros r1 r2.
  destruct (sdk_new_object cls1 msg1 None h)
    as ((d1 & Hobj1 & _ & Hd1) & _ & _).
  destruct (sdk_new_object cls2 msg2 None r1.2)
    as ((d2 & Hobj2 & _ & Hd2) & Hnew2 & Hkeep2).
  fold r1 in Hobj1, Hd1, Hobj2, Hd2, Hnew2, Hkeep2.
  fold r2 in Hobj2, Hd2, Hnew2, Hkeep2.
  destruct (Hd1 eq_refl) as (_ & Hempty1 & _).
  destruct (Hd2 eq_refl) as (Hfresh2 & Hempty2 & _).
  exists d1, d2. repeat split.
  - unfold get_property. now rewrite (Hkeep2 _ _ Hobj1).
  - unfold get_property. now rewrite Hobj2.
  - now apply Hkeep2.
  - exact Hempty2.
  - intros ->. congruence.
  - intros Heq. rewrite <- Heq in Hnew2. congruence.
Qed.

(** The store a classified error is built in. *)
Lemma construct_keeps_original h error (cls : SdkClass) (msg code : string) :
  let r := (let '(d, h1) := originalError_details error h in
            construct cls msg (Some code) (Some d) h1) in
  exists d,
    r.2 !! r.1 = Some (SdkError cls (class_name cls) msg code d)
    /\ r.2 !! d = Some (Plain {[ "originalError" := error ]})
    /\ h !! d = None.
Proof.
  unfold originalError_details.
  destruct (alloc (Plain {[ "originalError" := error ]}) h) as [d h1] eqn:Hd.
  assert (d = (alloc (Plain {[ "originalError" := error ]}) h).1
          /\ h1 = (alloc (Plain {[ "originalError" := error ]}) h).2) as [Ed Eh1]
    by now rewrite Hd.
  cbn zeta.
  destruct (construct_object cls msg (Some code) (Some d) h1)
    as ((d' & Hobj & Hd' & _) & _ & Hkeep).
  rewrite (Hd' d eq_refl) in Hobj.
  exists d. split; [exact Hobj | split].
  - apply Hkeep. rewrite Ed, Eh1. apply alloc_lookup.
  - rewrite Ed. apply alloc_fresh.
Qed.

(** What [normalizeError] does past its first test, as one equation. *)
Lemma normalizeError_not_sdk h error (defaultMessage : option string) :
  instanceof_PayPerToolError h error = false ->
  let msg := message_or_default h error defaultMessage in
  normalizeError error defaultMessage h =
  if mentions_network msg
  then let '(d, h0) := originalError_details error h in
       construct NetworkError msg (Some "NETWORK_ERROR") (Some d) h0
  else if mentions_wallet msg
  then let '(d, h0) := originalError_details error h in
       construct WalletError msg (Some "WALLET_ERROR") (Some d) h0
  else if mentions_contract msg
  then let '(d, h0) := originalError_details error h in
       construct ContractError msg (Some "CONTRACT_ERROR") (Some d) h0
  else let '(d, h0) := originalError_details error h in
       construct PayPerToolError msg (Some "UNKNOWN_ERROR") (Some d) h0.
Proof.
  intros Hnot msg.
  assert (match hasMessage h error with
          | Some m => m
          | None => default "Unknown error" defaultMessage
          end = msg) as Hmsg.
  { subst msg. unfold message_or_default, get_property, hasMessage.
    destruct error as [| | b | n | s | l]; try reflexivity.
    destruct (h !! l) as [[props | nm m | cls nm m code det] |];
      try reflexivity.
    now destruct (props !! "message") as [[] |]. }
  clearbody msg. unfold normalizeError.
  destruct error; try rewrite Hnot; rewrite Hmsg; reflexivity.
Qed.

(** X9: for an input that is not an SDK error, normalizeError builds a
    new error whose class and code are chosen by the first keyword group
    its message matches: network, connection or timeout give a
    NetworkError; otherwise wallet, signer or account give a WalletError;
    otherwise contract, execute or query give a ContractError; otherwise
    a PayPerToolError with code UNKNOWN_ERROR.  Its name is the class
    name, and its details are a new object whose originalError is the
    input. *)
Theorem normalizeError_classifies h error (defaultMessage : option string) :
  instanceof_PayPerToolError h error = false ->
  let msg := message_or_default h error defaultMessage in
  let r := normalizeError error defaultMessage h in
  exists cls code d,
    r.2 !! r.1 = Some (SdkError cls (class_name cls) msg code d)
    /\ r.2 !! d = Some (Plain {[ "originalError" := error ]})
    /\ h !! d = None
    /\ (cls, code) =
       if mentions_network msg then (NetworkError, "NETWORK_ERROR")
       else if mentions_wallet msg then (WalletError, "WALLET_ERROR")
       else if mentions_contract msg then (ContractError, "CONTRACT_ERROR")
       else (PayPerToolError, "UNKNOWN_ERROR").
Proof.
  intros Hnot msg r. subst r.
  rewrite (normalizeError_not_sdk h error defaultMessage Hnot). fold msg.
  destruct (mentions_network msg);
    [| destruct (mentions_wallet msg); [| destruct (mentions_contract msg)]].
  - destruct (construct_keeps_original h error NetworkError msg "NETWORK_ERROR")
      as (d & H1 & H2 & H3). exists NetworkError, "NETWORK_ERROR", d. auto.
  - destruct (construct_keeps_original h error WalletError msg "WALLET_ERROR")
      as (d & H1 & H2 & H3). exists WalletError, "WALLET_ERROR", d. auto.
  - destruct (construct_keeps_original h error ContractError msg "CONTRACT_ERROR")
      as (d & H1 & H2 & H3). exists ContractError, "CONTRACT_ERROR", d. auto.
  - destruct (construct_keeps_original h error PayPerToolError msg "UNKNOWN_ERROR")
      as (d & H1 & H2 & H3). exists PayPerToolError, "UNKNOWN_ERROR", d. auto.
Qed.

(** X10: an input without a string message (every primitive, also a
    thrown string, and every object whose message is missing or not a
    string) normalized without a default message gives a PayPerToolError
    with message "Unknown error" and code UNKNOWN_ERROR, whatever the
    input contains; the input is kept as details.originalError. *)
Theorem normalizeError_without_message h error :
  (forall m, get_property h error "message" <> Some (VString m)) ->
  let r := normalizeError error None h in
  exists d,
    r.2 !! r.1 = Some (SdkError PayPerToolError "PayPerToolError" "Unknown error"
                         "UNKNOWN_ERROR" d)
    /\ r.2 !! d = Some (Plain {[ "originalError" := error ]}).
Proof.
  intros Hno r. subst r.
  assert (instanceof_PayPerToolError h error = false) as Hnot.
  { destruct (instanceof_PayPerToolError h error) eqn:Hinst; [| reflexivity].
    exfalso. unfold instanceof_PayPerToolError in Hinst.
    destruct error as [| | b | n | s | l]; try discriminate Hinst.
    unfold get_property in Hno.
    destruct (h !! l) as [[props | nm m | cls nm m code det] |];
      try discriminate Hinst.
    now apply (Hno m). }
  assert (message_or_default h error None = "Unknown error") as Hmsg.
  { unfold message_or_default.
    destruct (get_property h error "message") as [[| | b | n | s | l] |] eqn:Hp;
      try reflexivity.
    now destruct (Hno s). }
  rewrite (normalizeError_not_sdk h error None Hnot), Hmsg.
  change (mentions_network "Unknown error") with false.
  change (mentions_wallet "Unknown error") with false.
  change (mentions_contract "Unknown error") with false.
  destruct (construct_keeps_original h error PayPerToolError "Unknown error"
              "UNKNOWN_ERROR") as (d & H1 & H2 & _).
  exists d. auto.
Qed.

End ErrorClasses.

Lemma normalizeError_classifies_witness :
  let h : gmap Errors.loc Errors.Obj :=
    {[ 1%positive := Errors.ErrorObj "Error" "wallet connection refused" ]} in
  let r := Errors.normalizeError (Errors.VRef 1%positive) None h in
  exists cls code d,
    r.2 !! r.1 = Some (Errors.SdkError cls (Errors.class_name cls)
                         "wallet connection refused" code d)
    /\ r.2 !! d
       = Some (Errors.Plain {[ "originalError" := Errors.VRef 1%positive ]})
    /\ h !! d = None
    /\ (cls, code) = (Errors.NetworkError, "NETWORK_ERROR").
Proof.
  exact (normalizeError_classifies
           {[ 1%positive := Errors.ErrorObj "Error" "wallet connection refused" ]}
           (Errors.VRef 1%positive) None eq_refl).
Defined.

Lemma normalizeError_without_message_witness :
  let r := Errors.normalizeError (Errors.VString "network down") None ∅ in
  exists d,
    r.2 !! r.1 = Some (Errors.SdkError Errors.PayPerToolError "PayPerToolError"
                         "Unknown error" "UNKNOWN_ERROR" d)
    /\ r.2 !! d
       = Some (Errors.Plain {[ "originalError" := Errors.VString "network down" ]}).
Proof.
  refine (normalizeError_without_message ∅ (Errors.VString "network down") _).
  intros m. discriminate.
Defined.
